(** * Wizpr-Suite: the event-driven device-integration pipeline

    A shallow embedding of the Python sources

      - [core/event_bus.py]      (module [EventBus])
      - [core/action_router.py]  (module [ActionRouter])
      - [core/config.py]         (module [Config])
      - [ble/ble_manager.py]     (module [BLEManager])
      - [ble/ring_controller.py] (modules [RingController], [RingSession])
      - [ui/main_window.py]      (modules [MainWindow], [Bridge]: the mappings
                                  tab and the wiring of the bus)
      - [llm/registry.py]        (module [ProviderRegistry])

    Reading conventions.  Python [str] values are sequences of Unicode code
    points.  Objects that the code mutates in place (the bus, the router,
    the manager, the configuration) are threaded explicitly through a state
    and exception monad.  Coroutines run to completion on one event loop, so
    [await f(x)] is the sequential call of [f].  What a call raises is an
    instance of [Exception], the class that every [except] clause of these
    sources names; cancellation and interpreter exit are not modelled.  The
    BLE library (bleak) is a record of operations over a state of its own,
    so that any behaviour of the library can be supplied.

    The sources carry no decorator.  The classes of [config.py],
    [DiscoveredDevice] and [RingProfile] are therefore plain classes: a call
    with arguments raises [TypeError], an instance shows the attributes of
    its class, [__post_init__] is a method that nothing calls, and [asdict]
    rejects the instance.  [BLEManager.client] is a plain method, so the
    expression [self.ble.client] is that method bound to the manager and not
    the client that the manager holds. *)

From Stdlib Require Import ZArith NArith QArith List String Ascii Lia.
From Stdlib Require Import Sorting.Sorted Sorting.Permutation.
From stdpp Require Import base option list gmap.

Set Warnings "-register-all".
Local Open Scope Z_scope.
Local Open Scope list_scope.

(** ** Python values *)

(** A Python [str]: its code points. *)
Definition str := list N.

(** The code points of an ASCII literal of the source. *)
Definition py (s : string) : str := List.map N_of_ascii (list_ascii_of_string s).

(** A raised exception object (an instance of [Exception]): its class name
    and its argument. *)
Record Exception := mkException { exc_class : string; exc_arg : str }.

Definition RuntimeError (msg : str) : Exception := mkException "RuntimeError" msg.
Definition AttributeError (msg : str) : Exception := mkException "AttributeError" msg.
Definition TypeError (msg : str) : Exception := mkException "TypeError" msg.

(** What the call of a plain class with arguments raises: the class
    defines no [__init__], so [object.__init__] rejects them. *)
Definition takes_no_arguments (cls : string) : Exception :=
  TypeError (py cls ++ py "() takes no arguments").

(** The outcome of running a piece of Python code. *)
Inductive result (A : Type) : Type :=
| Return (a : A)
| Raise (e : Exception).
Arguments Return {A} a.
Arguments Raise {A} e.

Definition bind_result {A B} (r : result A) (k : A -> result B) : result B :=
  match r with
  | Return a => k a
  | Raise e => Raise e
  end.

(** Dynamically typed data: JSON documents and event payloads. A [dict] keeps
    its insertion order. *)
Inductive value : Type :=
| VNone
| VBool (b : bool)
| VInt (z : Z)
| VStr (s : str)
| VList (l : list value)
| VDict (d : list (str * value)).

(** ** Built-in operations on [str] and [bytes] *)

Module Str.

(** [str.isspace] on one code point. *)
Definition is_space (c : N) : bool :=
  ((9 <=? c) && (c <=? 13) || (28 <=? c) && (c <=? 32) || (c =? 133) || (c =? 160)
   || (c =? 5760) || (8192 <=? c) && (c <=? 8202) || (c =? 8232) || (c =? 8233)
   || (c =? 8239) || (c =? 8287) || (c =? 12288))%N.

Fixpoint lstrip (s : str) : str :=
  match s with
  | [] => []
  | c :: rest => if is_space c then lstrip rest else s
  end.

(** [s.strip()] *)
Definition strip (s : str) : str := rev (lstrip (rev (lstrip s))).

(** [x or y] on strings, where [x] may also be [None]. *)
Definition or_else (x : option str) (y : str) : str :=
  match x with
  | Some (c :: rest) => c :: rest
  | Some [] | None => y
  end.

Definition hex_digit (n : N) : N :=
  (if n <? 10 then 48 + n else 87 + n)%N.

(** [data.hex()] *)
Definition hex (data : list Byte.byte) : str :=
  flat_map (fun b => let n := Byte.to_N b in
                     [hex_digit (n / 16); hex_digit (n mod 16)]%N) data.

Definition is_continuation (b : N) : bool := ((128 <=? b) && (b <? 192))%N.

Definition cp2 (b1 b2 : N) : N := ((b1 - 192) * 64 + (b2 - 128))%N.
Definition cp3 (b1 b2 b3 : N) : N :=
  ((b1 - 224) * 4096 + (b2 - 128) * 64 + (b3 - 128))%N.
Definition cp4 (b1 b2 b3 b4 : N) : N :=
  ((b1 - 240) * 262144 + (b2 - 128) * 4096 + (b3 - 128) * 64 + (b4 - 128))%N.

(** Second bytes that would give an overlong form or a surrogate after a
    three-byte lead, or leave the Unicode range after a four-byte lead. *)
Definition bad_second3 (b1 b2 : N) : bool :=
  (if b2 <? 160 then b1 =? 224 else b1 =? 237)%N.
Definition bad_second4 (b1 b2 : N) : bool :=
  (if b2 <? 144 then b1 =? 240 else b1 =? 244)%N.

(** The UTF-8 decoder with [errors="ignore"]: an invalid start byte is
    dropped, an invalid continuation drops the bytes before it, a sequence
    cut short by the end of the data is dropped whole. It never raises. *)
Fixpoint utf8_ignore (bs : list N) : str :=
  match bs with
  | [] => []
  | b1 :: r1 =>
      if (b1 <? 128)%N then b1 :: utf8_ignore r1
      else if (b1 <? 194)%N then utf8_ignore r1
      else if (b1 <? 224)%N then
        match r1 with
        | [] => []
        | b2 :: r2 =>
            if is_continuation b2 then cp2 b1 b2 :: utf8_ignore r2
            else utf8_ignore r1
        end
      else if (b1 <? 240)%N then
        match r1 with
        | [] => []
        | b2 :: r2 =>
            if negb (is_continuation b2) || bad_second3 b1 b2 then utf8_ignore r1
            else match r2 with
                 | [] => []
                 | b3 :: r3 =>
                     if is_continuation b3 then cp3 b1 b2 b3 :: utf8_ignore r3
                     else utf8_ignore r2
                 end
        end
      else if (b1 <? 245)%N then
        match r1 with
        | [] => []
        | b2 :: r2 =>
            if negb (is_continuation b2) || bad_second4 b1 b2 then utf8_ignore r1
            else match r2 with
                 | [] => []
                 | b3 :: r3 =>
                     if negb (is_continuation b3) then utf8_ignore r2
                     else match r3 with
                          | [] => []
                          | b4 :: r4 =>
                              if is_continuation b4
                              then cp4 b1 b2 b3 b4 :: utf8_ignore r4
                              else utf8_ignore r3
                          end
                 end
        end
      else utf8_ignore r1
  end.

(** [bytes(data).decode("utf-8", errors="ignore")] *)
Definition decode_ignore (data : list Byte.byte) : str :=
  utf8_ignore (List.map Byte.to_N data).

(** [str.lower] on text of the ASCII range. *)
Definition ascii_lower (s : str) : str :=
  List.map (fun c => if (65 <=? c) && (c <=? 90) then c + 32 else c)%N s.

(** The bytes of an ASCII literal. *)
Definition bytes_of (s : string) : list Byte.byte := list_byte_of_string s.

End Str.

(** ** State and exception monad *)

Module Py.

Definition M (S A : Type) : Type := S -> result A * S.

Definition ret {S A} (a : A) : M S A := fun s => (Return a, s).

Definition bind {S A B} (m : M S A) (k : A -> M S B) : M S B :=
  fun s => match m s with
           | (Return a, s') => k a s'
           | (Raise e, s') => (Raise e, s')
           end.

Definition raise {S A} (e : Exception) : M S A := fun s => (Raise e, s).

(** [try: m  except Exception as e: h e]; what [m] did to the state before it
    raised stays done. *)
Definition try_except {S A} (m : M S A) (h : Exception -> M S A) : M S A :=
  fun s => match m s with
           | (Return a, s') => (Return a, s')
           | (Raise e, s') => h e s'
           end.

(** [try: m  finally: f]. *)
Definition try_finally {S A} (m : M S A) (f : M S unit) : M S A :=
  fun s => match m s with
           | (r, s') => match f s' with
                        | (Return _, s'') => (r, s'')
                        | (Raise e, s'') => (Raise e, s'')
                        end
           end.

Definition get {S} : M S S := fun s => (Return s, s).
Definition gets {S A} (f : S -> A) : M S A := fun s => (Return (f s), s).
Definition modify {S} (f : S -> S) : M S unit := fun s => (Return tt, f s).

(** [for x in xs: body x] *)
Fixpoint for_each {S A} (xs : list A) (body : A -> M S unit) : M S unit :=
  match xs with
  | [] => ret tt
  | x :: rest => bind (body x) (fun _ => for_each rest body)
  end.

End Py.

Declare Scope py_scope.
Delimit Scope py_scope with py.
Notation "x <- m ;; k" := (Py.bind m (fun x => k))
  (at level 100, m at next level, right associativity) : py_scope.
Notation "m ;;; k" := (Py.bind m (fun _ => k))
  (at level 100, right associativity) : py_scope.

(** ** core/event_bus.py *)

Module EventBus.

(** A subscribed handler is a coroutine function; it is known by its
    identity. *)
Definition Handler := nat.

Section Bus.
(** The rest of the application that handlers may read and write. *)
Context {App : Type}.

(** [self._subs], a [defaultdict(list)], next to the application state. *)
Record World := mkWorld {
  _subs : gmap str (list Handler);
  app : App
}.

(** The state of a run: the world, and the record of every handler
    invocation made so far (handler, payload, outcome), oldest first. *)
Record Run := mkRun {
  world : World;
  calls : list (Handler * value * result unit)
}.

(** What the coroutine behind each handler does: it may change the world,
    the bus included, and returns or raises. *)
Variable body : Handler -> value -> World -> result unit * World.

(** [self._subs[topic]] on the [defaultdict]: a missing key reads as the
    empty list. *)
Definition subs_at (w : World) (topic : str) : list Handler :=
  default [] (_subs w !! topic).

(** [self._subs[topic].append(handler)] *)
Definition subscribe_world (topic : str) (handler : Handler) (w : World) : World :=
  mkWorld (<[topic := subs_at w topic ++ [handler]]> (_subs w)) (app w).

Definition subscribe (topic : str) (handler : Handler) : Py.M Run unit :=
  Py.modify (fun r => mkRun (subscribe_world topic handler (world r)) (calls r)).

(** [await h(payload)] *)
Definition await_handler (h : Handler) (payload : value) : Py.M Run unit :=
  fun r => let '(out, w') := body h payload (world r) in
           (out, mkRun w' (calls r ++ [(h, payload, out)])).

Definition publish (topic : str) (payload : value) : Py.M Run unit :=
  (subs <- Py.gets (fun r => _subs (world r)) ;;
   match subs !! topic with
   | None => Py.ret tt                         (* topic not in self._subs *)
   | Some hs =>                                (* list(self._subs[topic]) *)
       Py.for_each hs (fun h =>
         Py.try_except (await_handler h payload)
                       (fun _ => Py.ret tt))   (* continue *)
   end)%py.

(** A recorded call without its outcome: the handler and the payload. *)
Definition who (c : Handler * value * result unit) : Handler * value := fst c.

(** The handlers invoked between two states of a run. *)
Definition invoked (before after : Run) : list Handler :=
  List.map (fun c => fst (fst c)) (drop (length (calls before)) (calls after)).

End Bus.

Arguments World : clear implicits.
Arguments Run : clear implicits.

End EventBus.

(** ** core/action_router.py *)

Module ActionRouter.

(** An action handler is a coroutine function taking the payload [dict]. *)
Definition ActionHandler := nat.

(** A [dict[str, Any]] in insertion order. *)
Definition payload_dict := list (str * value).

Section Router.
Context {App : Type}.

(** [self._handlers] next to the application state, and the record of the
    handler invocations made so far (handler, payload received). *)
Record Router := mkRouter {
  _handlers : gmap str ActionHandler;
  app : App;
  calls : list (ActionHandler * payload_dict)
}.

(** What the coroutine behind each action handler does. *)
Variable body : ActionHandler -> payload_dict -> App -> result unit * App.

(** [self._handlers[action] = handler] *)
Definition register_action_handler (action : str) (handler : ActionHandler)
  : Py.M Router unit :=
  Py.modify (fun r => mkRouter (<[action := handler]> (_handlers r)) (app r) (calls r)).

(** [payload or {"action": action}]: [None] and the empty [dict] are
    false, every other [dict] is true. *)
Definition payload_or_default (action : str) (payload : option payload_dict)
  : payload_dict :=
  match payload with
  | Some (kv :: d) => kv :: d
  | Some [] | None => [(py "action", VStr action)]
  end.

(** [await h(arg)] *)
Definition await_handler (h : ActionHandler) (arg : payload_dict) : Py.M Router unit :=
  fun r => let '(out, a') := body h arg (app r) in
           (out, mkRouter (_handlers r) a' (calls r ++ [(h, arg)])).

Definition dispatch (action : str) (payload : option payload_dict) : Py.M Router unit :=
  (hs <- Py.gets _handlers ;;
   match hs !! action with                     (* self._handlers.get(action) *)
   | None => Py.ret tt                         (* if not h: return *)
   | Some h => await_handler h (payload_or_default action payload)
   end)%py.

End Router.

Arguments Router : clear implicits.

End ActionRouter.

(** ** Python dictionaries in insertion order *)

Module Dict.

Section Dict.
Context {V : Type}.

(** [d.get(k)] *)
Fixpoint get (d : list (str * V)) (k : str) : option V :=
  match d with
  | [] => None
  | (k', v) :: rest => if decide (k' = k) then Some v else get rest k
  end.

(** [d[k] = v]: a present key keeps its place, a new key goes last. *)
Fixpoint set (d : list (str * V)) (k : str) (v : V) : list (str * V) :=
  match d with
  | [] => [(k, v)]
  | (k', v') :: rest =>
      if decide (k' = k) then (k', v) :: rest else (k', v') :: set rest k v
  end.

(** [d.setdefault(k, v)] *)
Definition setdefault (d : list (str * V)) (k : str) (v : V) : list (str * V) :=
  match get d k with
  | Some _ => d
  | None => d ++ [(k, v)]
  end.

Definition keys (d : list (str * V)) : list str := List.map fst d.

End Dict.

End Dict.

(** ** core/config.py *)

Module Config.

(** The three section classes.  They are plain classes: the annotated names
    are class attributes, and an instance has no attribute of its own until
    the window assigns one. *)
Record OpenAIConfig := mkOpenAIConfig {
  openai_api_key : value;
  openai_model : value;
  openai_base_url : value
}.

Record OllamaConfig := mkOllamaConfig {
  ollama_base_url : value;
  ollama_model : value
}.

Record OpenAICompatConfig := mkOpenAICompatConfig {
  compat_base_url : value;
  compat_api_key : value;
  compat_model : value
}.

(** What [field(default_factory=C)] evaluates to in the body of [AppConfig]:
    a [dataclasses.Field] object.  No decorator replaces it, so it stays the
    value of the class attribute. *)
Record Field := mkField { default_factory : string }.

Record AppConfig := mkAppConfig {
  theme : str;
  openai : Field;
  ollama : Field;
  openai_compat : Field;
  last_ble_address : str;
  mappings : option (list (str * value))
}.

(** The section classes called without arguments: the attributes read on the
    instance are those of the class. *)
Definition default_OpenAIConfig : OpenAIConfig :=
  mkOpenAIConfig (VStr (py "")) (VStr (py "gpt-4o-mini")) (VStr (py "")).
Definition default_OllamaConfig : OllamaConfig :=
  mkOllamaConfig (VStr (py "http://127.0.0.1:11434")) (VStr (py "llama3.1:8b")).
Definition default_OpenAICompatConfig : OpenAICompatConfig :=
  mkOpenAICompatConfig (VStr (py "http://127.0.0.1:8080")) (VStr (py "")) (VStr (py "")).

(** [dc_cls] called with the keywords of [val]: the call returns the
    instance when [val] is empty and raises [TypeError] for any keyword. *)
Definition new_section {C : Type} (cls : string) (instance : C)
    (val : list (str * value)) : result C :=
  match val with
  | [] => Return instance
  | _ :: _ => Raise (takes_no_arguments cls)
  end.

Definition new_OpenAIConfig : list (str * value) -> result OpenAIConfig :=
  new_section "OpenAIConfig" default_OpenAIConfig.
Definition new_OllamaConfig : list (str * value) -> result OllamaConfig :=
  new_section "OllamaConfig" default_OllamaConfig.
Definition new_OpenAICompatConfig : list (str * value) -> result OpenAICompatConfig :=
  new_section "OpenAICompatConfig" default_OpenAICompatConfig.

(** [AppConfig()]: the attributes of the class.  [mappings] is [None]. *)
Definition AppConfig_default : AppConfig :=
  mkAppConfig (py "dark") (mkField "OpenAIConfig") (mkField "OllamaConfig")
              (mkField "OpenAICompatConfig") (py "") None.

(** [AppConfig(theme=.., openai=.., .., mappings=..)]: the arguments are
    evaluated, then the call raises. *)
Definition new_AppConfig (theme : str) (openai : OpenAIConfig) (ollama : OllamaConfig)
    (openai_compat : OpenAICompatConfig) (last_ble_address : str)
    (mappings : option (list (str * value))) : result AppConfig :=
  Raise (takes_no_arguments "AppConfig").

(** The table that the method [__post_init__] would install. *)
Definition default_mappings : list (str * value) :=
  [ (py "toggle_listen", VList [VStr (py "button_single")]);
    (py "send_last_transcript", VList [VStr (py "button_double")]);
    (py "cycle_llm", VList [VStr (py "button_long")]) ].

(** [AppConfig.__post_init__(self)].  Nothing in the sources calls it. *)
Definition __post_init__ (self : AppConfig) : AppConfig :=
  match mappings self with
  | None => mkAppConfig (theme self) (openai self) (ollama self) (openai_compat self)
                        (last_ble_address self) (Some default_mappings)
  | Some _ => self
  end.

Section Load.
(** The built-in [str] on a value that is not a [str] already. *)
Variable repr : value -> str.

Definition py_str (v : value) : str :=
  match v with
  | VStr s => s
  | _ => repr v
  end.

(** [raw.get(key, dflt)]: [raw] has a [get] only when it is a [dict]. *)
Definition raw_get (raw : value) (key : string) (dflt : value) : result value :=
  match raw with
  | VDict d => Return (default dflt (Dict.get d (py key)))
  | _ => Raise (AttributeError (py "object has no attribute 'get'"))
  end.

(** The local helper [_dc(dc_cls, val, default)]. *)
Definition _dc {C : Type} (dc_cls : list (str * value) -> result C) (val : value)
    (dflt : C) : C :=
  match val with
  | VDict d => match dc_cls d with
               | Return c => c
               | Raise _ => dflt
               end
  | _ => dflt
  end.

(** The settings file as [load_config] meets it: absent ([None]), or
    present with the outcome of [json.loads(path.read_text(..))]. *)
Definition persisted := option (result value).

Definition load_config (file : persisted) : result AppConfig :=
  match file with
  | None => Return AppConfig_default                (* not path.exists() *)
  | Some (Raise _) => Return AppConfig_default      (* except Exception *)
  | Some (Return raw) =>
      bind_result (raw_get raw "theme" (VStr (py "dark"))) (fun th =>
      bind_result (raw_get raw "openai" VNone) (fun oa =>
      bind_result (raw_get raw "ollama" VNone) (fun ol =>
      bind_result (raw_get raw "openai_compat" VNone) (fun oc =>
      bind_result (raw_get raw "last_ble_address" (VStr (py ""))) (fun addr =>
      bind_result (raw_get raw "mappings" VNone) (fun mp =>
      new_AppConfig (py_str th)
        (_dc new_OpenAIConfig oa default_OpenAIConfig)
        (_dc new_OllamaConfig ol default_OllamaConfig)
        (_dc new_OpenAICompatConfig oc default_OpenAICompatConfig)
        (py_str addr)
        (match mp with
         | VDict d => Some d
         | _ => None
         end)))))))
  end.

End Load.

(** [asdict(cfg)]: the argument is an instance of a class that is no
    dataclass. *)
Definition not_a_dataclass : Exception :=
  TypeError (py "asdict() should be called on dataclass instances").

Definition asdict {C : Type} (cfg : C) : result value := Raise not_a_dataclass.

(** [save_config(app_dir, cfg)], given the outcome of [app_dir.mkdir(..)].
    The file is written with the text of [asdict(cfg)], once [asdict] has
    returned. *)
Definition save_config {C : Type} (mkdir : result unit) (cfg : C) : result unit :=
  bind_result mkdir (fun _ =>
  bind_result (asdict cfg) (fun obj =>
  Return tt)).

(** What [save_config] raises: the error of [mkdir], or else that of
    [asdict]. *)
Definition save_config_error (mkdir : result unit) : Exception :=
  match mkdir with
  | Raise e => e
  | Return _ => not_a_dataclass
  end.

End Config.

(** ** ble/ble_manager.py *)

Module BLEManager.

Record BLEDevice := mkBLEDevice {
  dev_address : str;
  dev_name : option str
}.

Record AdvertisementData := mkAdvertisementData {
  local_name : option str;
  adv_rssi : option Z
}.

(** The class [DiscoveredDevice]: three annotations, no decorator and no
    [__init__]. *)
Record DiscoveredDevice := mkDiscoveredDevice {
  address : str;
  name : str;
  rssi : Z
}.

(** [DiscoveredDevice(address=.., name=.., rssi=..)] *)
Definition new_DiscoveredDevice (address name : str) (rssi : Z) : result DiscoveredDevice :=
  Raise (takes_no_arguments "DiscoveredDevice").

(** [BleakClient(device or address, timeout=timeout)] *)
Record BleakClient := mkBleakClient {
  target : BLEDevice + str;
  client_timeout : Q
}.

Record GattCharacteristic := mkGattCharacteristic {
  chr_uuid : str;
  chr_properties : option (list str);
  chr_description : option str
}.

Record GattService := mkGattService {
  svc_uuid : str;
  svc_description : option str;
  svc_characteristics : list GattCharacteristic
}.

(** The calls that the manager makes on the BLE library. *)
Inductive Call : Type :=
| ScannerStart
| ScannerStop
| Sleep (seconds : Q)
| FindDevice (address : str) (timeout : Q)
| Connect (client : BleakClient)
| Disconnect (client : BleakClient).

(** The BLE library and the event loop, over a state [Tr] of their own. *)
Record Transport (Tr : Type) := mkTransport {
  scanner_start : Tr -> result unit * Tr;
  scanner_stop : Tr -> result unit * Tr;
  (** the advertisements handed to the detection callback while the caller
      sleeps, in order of arrival *)
  sleep_scanning : Q -> Tr -> list (BLEDevice * AdvertisementData) * Tr;
  sleep : Q -> Tr -> Tr;
  find_device_by_address : str -> Q -> Tr -> result (option BLEDevice) * Tr;
  client_connect : BleakClient -> Tr -> result unit * Tr;
  client_disconnect : BleakClient -> Tr -> result unit * Tr;
  is_connected : BleakClient -> Tr -> bool;
  client_services : BleakClient -> Tr -> result (list GattService)
}.
Arguments scanner_start {Tr} _ _.
Arguments scanner_stop {Tr} _ _.
Arguments sleep_scanning {Tr} _ _ _.
Arguments sleep {Tr} _ _ _.
Arguments find_device_by_address {Tr} _ _ _ _.
Arguments client_connect {Tr} _ _ _.
Arguments client_disconnect {Tr} _ _ _.
Arguments is_connected {Tr} _ _ _.
Arguments client_services {Tr} _ _ _.

(** [out.sort(key=.., reverse=True)]: descending by key, elements of equal
    key stay in their order. *)
Section Sort.
Context {A : Type} (key : A -> Z).

Fixpoint insert_desc (x : A) (l : list A) : list A :=
  match l with
  | [] => [x]
  | y :: rest => if key x <? key y then y :: insert_desc x rest else x :: l
  end.

Definition sort_desc (l : list A) : list A := fold_right insert_desc [] l.
End Sort.

Section Manager.
Context {Tr : Type} (T : Transport Tr).

(** The manager ([self._client]), the library state, and the calls made on
    the library so far. *)
Record State := mkState {
  _client : option BleakClient;
  tr : Tr;
  trace : list Call
}.

Definition call {A} (c : Call) (f : Tr -> result A * Tr) : Py.M State A :=
  fun s => let '(r, w) := f (tr s) in
           (r, mkState (_client s) w (trace s ++ [c])).

Definition set_client (c : option BleakClient) : Py.M State unit :=
  Py.modify (fun s => mkState c (tr s) (trace s)).

(** The detection callback of [scan]: [found[device.address] = (device, adv)] *)
Definition _cb (found : list (str * (BLEDevice * AdvertisementData)))
    (seen : BLEDevice * AdvertisementData)
  : list (str * (BLEDevice * AdvertisementData)) :=
  Dict.set found (dev_address (fst seen)) seen.

(** The body of the loop over [found.items()]: the name and the signal
    strength are computed, then the constructor is called. *)
Definition discovered (item : str * (BLEDevice * AdvertisementData))
  : result DiscoveredDevice :=
  let '(addr, (dev, adv)) := item in
  let name := Str.strip (Str.or_else (local_name adv) (Str.or_else (dev_name dev) [])) in
  let rssi := default 0 (adv_rssi adv) in
  new_DiscoveredDevice addr name rssi.

(** [for addr, (dev, adv) in found.items(): out.append(..)] *)
Fixpoint collect (items : list (str * (BLEDevice * AdvertisementData)))
  : result (list DiscoveredDevice) :=
  match items with
  | [] => Return []
  | item :: rest =>
      bind_result (discovered item) (fun d =>
      bind_result (collect rest) (fun out =>
      Return (d :: out)))
  end.

(** What [scan] makes of the advertisements that its callback received. *)
Definition scan_result (observed : list (BLEDevice * AdvertisementData))
  : result (list DiscoveredDevice) :=
  let found := fold_left _cb observed [] in
  bind_result (collect found) (fun out =>
  Return (sort_desc rssi out)).

(** The last advertisement observed from an address, if any. *)
Fixpoint last_seen (observed : list (BLEDevice * AdvertisementData)) (addr : str)
  : option (BLEDevice * AdvertisementData) :=
  match observed with
  | [] => None
  | seen :: later =>
      match last_seen later addr with
      | Some s => Some s
      | None => if decide (dev_address (fst seen) = addr) then Some seen else None
      end
  end.

Definition scan (seconds : Q) : Py.M State (list DiscoveredDevice) :=
  (call ScannerStart (scanner_start T) ;;;
   observed <- Py.try_finally
                 (call (Sleep seconds)
                       (fun w => let '(advs, w') := sleep_scanning T seconds w in
                                 (Return advs, w')))
                 (call ScannerStop (scanner_stop T)) ;;
   fun s => (scan_result observed, s))%py.

Definition disconnect : Py.M State unit :=
  (c <- Py.gets _client ;;
   match c with
   | None => Py.ret tt
   | Some cl =>
       Py.try_finally (call (Disconnect cl) (client_disconnect T cl))
                      (set_client None)
   end)%py.

(** [device or address] *)
Definition device_or (device : option BLEDevice) (address : str) : BLEDevice + str :=
  match device with
  | Some d => inl d
  | None => inr address
  end.

Definition find_device (address : str) (timeout : Q) : Py.M State (option BLEDevice) :=
  call (FindDevice address timeout) (find_device_by_address T address timeout).

Definition do_connect (client : BleakClient) : Py.M State unit :=
  call (Connect client) (client_connect T client).

(** The body of the inner [try] of [connect]: back off, resolve again,
    connect a new client. *)
Definition second_attempt (address : str) (timeout : Q) : Py.M State BleakClient :=
  (call (Sleep (1 # 2)) (fun w => (Return tt, sleep T (1 # 2) w)) ;;;
   device2 <- find_device address timeout ;;
   let client := mkBleakClient (device_or device2 address) timeout in
   do_connect client ;;;
   Py.ret client)%py.

Definition failed_to_connect (address : str) : Exception :=
  RuntimeError (py "Failed to connect to " ++ address).

Definition connect (address : str) (timeout : Q) : Py.M State BleakClient :=
  (disconnect ;;;
   device <- Py.try_except (find_device address timeout) (fun _ => Py.ret None) ;;
   let client := mkBleakClient (device_or device address) timeout in
   client <- Py.try_except (do_connect client ;;; Py.ret client)
               (fun first_err =>
                  Py.try_except (second_attempt address timeout)
                                (fun _ => Py.raise first_err)) ;;
   connected <- Py.gets (fun s => is_connected T client (tr s)) ;;
   if negb connected then Py.raise (failed_to_connect address)
   else (set_client (Some client) ;;; Py.ret client))%py.

(** The method [client(self)], when it is called: [return self._client]. *)
Definition client : Py.M State (option BleakClient) := Py.gets _client.

End Manager.

Arguments State : clear implicits.

End BLEManager.

(** ** ble/ring_controller.py *)

Module RingController.

Import BLEManager.

Definition characteristic_dict (c : GattCharacteristic) : value :=
  VDict [ (py "uuid", VStr (chr_uuid c));
          (py "properties", VList (List.map VStr (default [] (chr_properties c))));
          (py "description", VStr (default [] (chr_description c))) ].

Definition service_dict (s : GattService) : value :=
  VDict [ (py "uuid", VStr (svc_uuid s));
          (py "description", VStr (default [] (svc_description s)));
          (py "characteristics",
           VList (List.map characteristic_dict (svc_characteristics s))) ].

(** The object that a local variable [client] of the controller holds.
    [client] is a plain method of [BLEManager], so the expression
    [self.ble.client] gives that method bound to the manager, whatever the
    manager holds; a client object or [None] is what [self.ble._client], or
    a call of the method, would give. *)
Inductive object : Type :=
| Method (name : string)
| Client (c : BleakClient)
| NoneObject.

(** [x is None] *)
Definition is_None (x : object) : bool :=
  match x with
  | NoneObject => true
  | _ => false
  end.

(** What [x.name] raises when the object has no such attribute (the bound
    method hands the lookup over to its function). *)
Definition no_attribute (x : object) (name : string) : Exception :=
  match x with
  | NoneObject => AttributeError (py "'NoneType' object has no attribute '" ++ py name ++ py "'")
  | _ => AttributeError (py "'function' object has no attribute '" ++ py name ++ py "'")
  end.

Definition not_connected : Exception := RuntimeError (py "Not connected").

Section Ring.
Context {Tr : Type} (T : Transport Tr).

(** [self.ble.client] *)
Definition ble_client (ble : State Tr) : object := Method "client".

(** [client.services] *)
Definition services_of (client : object) (w : Tr) : result (list GattService) :=
  match client with
  | Client c => client_services T c w
  | _ => Raise (no_attribute client "services")
  end.

Definition gatt_summary : Py.M (State Tr) (list value) :=
  (client <- Py.gets ble_client ;;
   if is_None client then Py.ret []
   else
     services <- (fun s => (services_of client (tr s), s)) ;;
     Py.ret (List.map service_dict services))%py.

End Ring.

(** The notification callback that [subscribe] installs. *)
Section Notify.
(** [str.lower], the case mapping of the Python runtime. *)
Variable lower : str -> str.

(** The text that the callback matches; the decoder never raises, so the
    [except] branch that would set it to the empty string is never taken. *)
Definition decoded_text (data : list Byte.byte) : str :=
  lower (Str.strip (Str.decode_ignore data)).

Definition single_tokens : list str := [py "single"; py "button_single"; py "tap"].
Definition double_tokens : list str := [py "double"; py "button_double"; py "dbl"].
Definition long_tokens : list str := [py "long"; py "button_long"; py "hold"].

Definition gesture_payload (char_uuid txt : str) : value :=
  VDict [ (py "uuid", VStr char_uuid); (py "text", VStr txt) ].

(** [_cb(_sender, data)]: the publications it schedules on the event loop,
    as (topic, payload), in the order of their [asyncio.create_task]. *)
Definition _cb (char_uuid : str) (data : list Byte.byte) : list (str * value) :=
  let raw := (py "raw_notify",
              VDict [ (py "uuid", VStr char_uuid);
                      (py "data_hex", VStr (Str.hex data)) ]) in
  let txt := decoded_text data in
  raw ::
  (if bool_decide (txt ∈ single_tokens)
   then [(py "button_single", gesture_payload char_uuid txt)]
   else if bool_decide (txt ∈ double_tokens)
   then [(py "button_double", gesture_payload char_uuid txt)]
   else if bool_decide (txt ∈ long_tokens)
   then [(py "button_long", gesture_payload char_uuid txt)]
   else []).

End Notify.

End RingController.

(** ** ui/main_window.py: the mapping table *)

Module MainWindow.

(** [self.cfg.mappings]: action name to trigger topics. *)
Definition Mappings := list (str * list str).

(** The table of a configuration whose [mappings] has the annotated type
    [dict[str, list[str]]]. *)
Definition topics_of (v : value) : option (list str) :=
  match v with
  | VList l => mapM (fun t => match t with VStr s => Some s | _ => None end) l
  | _ => None
  end.

Definition mappings_of (raw : list (str * value)) : option Mappings :=
  mapM (fun kv => ts ← topics_of (snd kv); Some (fst kv, ts)) raw.

(** The actions that [_handle] dispatches for [topic], in dispatch order:
    [for action, triggers in mappings.items(): if topic in triggers]. *)
Definition triggered (m : Mappings) (topic : str) : list str :=
  List.map fst (List.filter (fun at_ => bool_decide (topic ∈ snd at_)) m).

Section Handle.
Context {App : Type}.
Variable body : ActionRouter.ActionHandler -> ActionRouter.payload_dict -> App
                -> result unit * App.

(** [_handle(topic, payload)] of [_wire_bus]. *)
Definition _handle (m : Mappings) (topic : str) (payload : value)
  : Py.M (ActionRouter.Router App) unit :=
  Py.for_each m (fun at_ =>
    let '(action, triggers) := at_ in
    if bool_decide (topic ∈ triggers)
    then ActionRouter.dispatch body action
           (Some [ (py "action", VStr action); (py "topic", VStr topic);
                   (py "payload", payload) ])
    else Py.ret tt).
End Handle.

(** The rows of the table widget after [_reload_mapping_table]: (trigger,
    action). *)
Definition table_rows (m : Mappings) : list (str * str) :=
  flat_map (fun at_ => List.map (fun trig => (trig, fst at_)) (snd at_)) m.

(** [l.remove(x)]: the first occurrence goes. *)
Fixpoint list_remove (x : str) (l : list str) : list str :=
  match l with
  | [] => []
  | y :: rest => if decide (y = x) then rest else y :: list_remove x rest
  end.

(** The statements of [_add_mapping] that change the table, on a table that
    is a [dict]: [setdefault(action, [])], then [append(trig)] unless the
    trigger is in the list. *)
Definition add_trigger (trig action : str) (m : Mappings) : Mappings :=
  let m1 := Dict.setdefault m action [] in
  let triggers := default [] (Dict.get m1 action) in
  if bool_decide (trig ∈ triggers) then m1
  else Dict.set m1 action (triggers ++ [trig]).

(** The body of the loop of [_remove_mapping] for one selected row, on a
    table that is a [dict]. *)
Definition remove_row (trig action : str) (m : Mappings) : Mappings :=
  match Dict.get m action with
  | Some triggers =>
      if bool_decide (trig ∈ triggers)
      then Dict.set m action (list_remove trig triggers)
      else m
  | None => m
  end.

(** The mappings tab: [self.cfg.mappings], which is [None] in the
    configuration that [AppConfig()] gives, and the rows that the widget
    [self.map_table] shows. *)
Record Tab := mkTab {
  cfg_mappings : option Mappings;
  map_table : list (str * str)
}.

(** [(self.cfg.mappings or {})] *)
Definition mappings_or_empty (tab : Tab) : Mappings := default [] (cfg_mappings tab).

Definition _reload_mapping_table : Py.M Tab unit :=
  Py.modify (fun tab => mkTab (cfg_mappings tab) (table_rows (mappings_or_empty tab))).

(** The tab as [_build_tab_mappings] leaves it: the widget was loaded from
    the table. *)
Definition opened (table : option Mappings) : Tab :=
  snd (_reload_mapping_table (mkTab table [])).

Section Tab.
(** The outcome of [app_dir.mkdir(..)] in [save_config]. *)
Variable mkdir : result unit.

(** [save_config(self.app_dir, self.cfg)] *)
Definition save : Py.M Tab unit :=
  fun tab => (Config.save_config mkdir (cfg_mappings tab), tab).

(** [_add_mapping], with the texts of the trigger field and of the action
    box. *)
Definition _add_mapping (trigger_text action_text : str) : Py.M Tab unit :=
  let trig := Str.strip trigger_text in
  let action := Str.strip action_text in
  match trig with
  | [] => Py.ret tt                                  (* Trigger is required. *)
  | _ :: _ =>
      (table <- Py.gets cfg_mappings ;;
       match table with
       | None =>
           Py.raise (AttributeError (py "'NoneType' object has no attribute 'setdefault'"))
       | Some m =>
           Py.modify (fun tab => mkTab (Some (add_trigger trig action m)) (map_table tab)) ;;;
           save ;;;
           _reload_mapping_table
       end)%py
  end.

(** The loop body of [_remove_mapping] for row [r] of the widget; the test
    [action in (self.cfg.mappings or {})] fails on a table that is [None]. *)
Definition remove_selected (r : nat) : Py.M Tab unit :=
  (shown <- Py.gets map_table ;;
   match shown !! r with
   | Some (trig, action) =>
       Py.modify (fun tab =>
         match cfg_mappings tab with
         | Some m => mkTab (Some (remove_row trig action m)) (map_table tab)
         | None => tab
         end)
   | None => Py.raise (AttributeError (py "'NoneType' object has no attribute 'text'"))
   end)%py.

(** [_remove_mapping], with the rows of the selected cells. *)
Definition _remove_mapping (selected : list nat) : Py.M Tab unit :=
  let rows := BLEManager.sort_desc Z.of_nat (remove_dups selected) in
  match rows with
  | [] => Py.ret tt
  | _ :: _ =>
      (Py.for_each rows remove_selected ;;;
       save ;;;
       _reload_mapping_table)%py
  end.

Inductive Op : Type :=
| AddMapping (trigger_text action_text : str)
| RemoveMapping (selected : list nat).

Definition step (op : Op) : Py.M Tab unit :=
  match op with
  | AddMapping t a => _add_mapping t a
  | RemoveMapping rows => _remove_mapping rows
  end.

(** A session of the mappings tab: each operation runs to its end, whether
    it returns or raises, and the next one starts from the tab it left. *)
Fixpoint run (ops : list Op) (tab : Tab) : Tab :=
  match ops with
  | [] => tab
  | op :: rest => run rest (snd (step op tab))
  end.

End Tab.

(** The trigger set of an action. *)
Definition trigger_set (m : Mappings) (action : str) : gset str :=
  list_to_set (default [] (Dict.get m action)).

(** The invariant of the data model: no topic twice in one trigger list. *)
Definition duplicate_free (m : Mappings) : Prop :=
  forall action triggers, Dict.get m action = Some triggers -> NoDup triggers.

(** The same of the table of a tab, when there is one. *)
Definition tab_duplicate_free (tab : Tab) : Prop :=
  forall m, cfg_mappings tab = Some m -> duplicate_free m.

End MainWindow.

(** ** Concrete scenarios *)

Module Scenario.

Definition boom : Exception := RuntimeError (py "boom").

(** Bus handlers: handler 1 raises, handler 2 subscribes handler 3 to
    [button_single], every other handler just returns. *)
Definition bus_body (h : EventBus.Handler) (payload : value) (w : EventBus.World unit)
  : result unit * EventBus.World unit :=
  match h with
  | 1%nat => (Raise boom, w)
  | 2%nat => (Return tt, EventBus.subscribe_world (py "button_single") 3%nat w)
  | _ => (Return tt, w)
  end.

Definition empty_bus : EventBus.Run unit :=
  EventBus.mkRun (EventBus.mkWorld ∅ tt) [].

(** The bus after handlers 4, 1, 2 and 5 subscribed to [button_single]. *)
Definition wired_bus : EventBus.Run unit :=
  snd (Py.for_each [4; 1; 2; 5]%nat (EventBus.subscribe (py "button_single")) empty_bus).

Definition tap_payload : value :=
  VDict [ (py "uuid", VStr (py "c1")); (py "text", VStr (py "single")) ].

(** Action handlers: each writes its own number to the application state;
    handler 0 raises after doing so. *)
Definition action_body (h : ActionRouter.ActionHandler) (arg : ActionRouter.payload_dict)
    (seen : list nat) : result unit * list nat :=
  match h with
  | O => (Raise boom, seen ++ [h])
  | _ => (Return tt, seen ++ [h])
  end.

Definition empty_router : ActionRouter.Router (list nat) :=
  ActionRouter.mkRouter ∅ [] [].

(** A router with handler 7 registered for [toggle_listen]. *)
Definition one_action_router : ActionRouter.Router (list nat) :=
  snd (ActionRouter.register_action_handler (py "toggle_listen") 7%nat empty_router).

(** A BLE library whose first [failures] connection attempts fail, each with
    its own error, and whose scanner hears [heard]. Its state counts the
    connection attempts made. *)
Definition attempt_error (n : nat) : Exception :=
  mkException "BleakError" (py "attempt " ++ [(48 + N.of_nat n)%N]).

Definition flaky (failures : nat) (heard : list (BLEManager.BLEDevice * BLEManager.AdvertisementData))
  : BLEManager.Transport nat :=
  BLEManager.mkTransport nat
    (fun w => (Return tt, w))
    (fun w => (Return tt, w))
    (fun _ w => (heard, w))
    (fun _ w => w)
    (fun address _ w => (Return (Some (BLEManager.mkBLEDevice address (Some (py "Ring")))), w))
    (fun _ w => (if (w <? failures)%nat then Raise (attempt_error w) else Return tt, S w))
    (fun _ w => (Return tt, w))
    (fun _ w => (failures <? w)%nat)
    (fun _ _ => Return []).

Definition idle : BLEManager.State nat := BLEManager.mkState None O [].

Definition ring_address : str := py "AA:BB".

Definition ring_client : BLEManager.BleakClient :=
  BLEManager.mkBleakClient (inl (BLEManager.mkBLEDevice ring_address (Some (py "Ring")))) 12.

(** The advertisements of the scan scenario: A at -40, B at -70, then A
    again at -38. *)
Definition advertisement (address : string) (rssi : Z)
  : BLEManager.BLEDevice * BLEManager.AdvertisementData :=
  (BLEManager.mkBLEDevice (py address) (Some (py "dev")),
   BLEManager.mkAdvertisementData (Some (py " ring ")) (Some rssi)).

Definition heard_ABA : list (BLEManager.BLEDevice * BLEManager.AdvertisementData) :=
  [advertisement "A" (-40); advertisement "B" (-70); advertisement "A" (-38)].

(** The table that [AppConfig.__post_init__] would install, as a table of
    the window. *)
Definition default_table : MainWindow.Mappings :=
  [ (py "toggle_listen", [py "button_single"]);
    (py "send_last_transcript", [py "button_double"]);
    (py "cycle_llm", [py "button_long"]) ].

End Scenario.

(** ** ui/main_window.py: the bridge from the bus to the router *)

Module Bridge.

Section Wire.
(** The application state that the action handlers read and write. *)
Context {A : Type}.
Variable action_body : ActionRouter.ActionHandler -> ActionRouter.payload_dict -> A
                       -> result unit * A.
(** The built-in [str] on a payload. *)
Variable repr : value -> str.

(** The parts of the window that the bus handlers touch: the router, the
    mapping table of the configuration, and the lines of the notify box. *)
Record Window := mkWindow {
  router : ActionRouter.Router A;
  mappings : MainWindow.Mappings;
  notify_box : list str
}.

(** The topics that [_wire_bus] bridges, in its order. *)
Definition gesture_topics : list str :=
  [py "button_single"; py "button_double"; py "button_long"].

(** The handler that [_mk(topic)] returns for the topic of rank [i] is
    handler [i]; [self._on_raw_notify] is handler 3. *)
Definition on_raw_notify : EventBus.Handler := 3%nat.

(** [_on_raw_notify]: the text of the payload goes to the notify box. *)
Definition _on_raw_notify (payload : value) (win : Window) : Window :=
  mkWindow (router win) (mappings win) (notify_box win ++ [repr payload]).

(** [_h(payload)] of [_mk(topic)]: [await _handle(topic, payload)]. *)
Definition _h (topic : str) (payload : value) (win : Window) : result unit * Window :=
  let '(out, r') := MainWindow._handle action_body (mappings win) topic payload (router win) in
  (out, mkWindow r' (mappings win) (notify_box win)).

(** What the coroutine behind each bus handler of the window does. *)
Definition window_body (h : EventBus.Handler) (payload : value)
    (w : EventBus.World Window) : result unit * EventBus.World Window :=
  match gesture_topics !! h with
  | Some topic =>
      let '(out, win') := _h topic payload (EventBus.app w) in
      (out, EventBus.mkWorld (EventBus._subs w) win')
  | None =>
      if (h =? on_raw_notify)%nat
      then (Return tt, EventBus.mkWorld (EventBus._subs w)
                         (_on_raw_notify payload (EventBus.app w)))
      else (Return tt, w)
  end.

Definition _wire_bus : Py.M (EventBus.Run Window) unit :=
  (Py.for_each (imap (fun i topic => (topic, i)) gesture_topics)
     (fun th => EventBus.subscribe (fst th) (snd th)) ;;;
   EventBus.subscribe (py "raw_notify") on_raw_notify)%py.

(** The bus of a window right after [_wire_bus]. *)
Definition wired (win : Window) : EventBus.Run Window :=
  snd (_wire_bus (EventBus.mkRun (EventBus.mkWorld ∅ win) [])).

(** A notification of the ring: the publications that the callback
    schedules run one after the other, in the order of their scheduling (no
    handler of the window suspends). *)
Definition notify (lower : str -> str) (char_uuid : str) (data : list Byte.byte)
  : Py.M (EventBus.Run Window) unit :=
  Py.for_each (RingController._cb lower char_uuid data)
    (fun ev => EventBus.publish window_body (fst ev) (snd ev)).

(** The payload that [_handle] passes to [dispatch]. *)
Definition dispatch_payload (action topic : str) (payload : value)
  : ActionRouter.payload_dict :=
  [ (py "action", VStr action); (py "topic", VStr topic); (py "payload", payload) ].

(** The calls that a lookup leads to when every handler returns: one per
    matching action that has a handler, in the order of the lookup. *)
Definition expected_calls (handlers : gmap str ActionRouter.ActionHandler)
    (actions : list str) (topic : str) (payload : value)
  : list (ActionRouter.ActionHandler * ActionRouter.payload_dict) :=
  omap (fun action => h ← handlers !! action;
                      Some (h, dispatch_payload action topic payload)) actions.

End Wire.

Arguments Window : clear implicits.

End Bridge.

(** ** ble/ring_controller.py: the session *)

Module RingSession.

Import BLEManager.

(** The notification calls of a connected client. *)
Record Notifier (Tr : Type) := mkNotifier {
  start_notify : BleakClient -> str -> Tr -> result unit * Tr;
  stop_notify : BleakClient -> str -> Tr -> result unit * Tr
}.
Arguments start_notify {Tr} _ _ _ _.
Arguments stop_notify {Tr} _ _ _ _.

(** [d.pop(k, None)] *)
Fixpoint pop {V : Type} (d : list (str * V)) (k : str) : list (str * V) :=
  match d with
  | [] => []
  | (k', v) :: rest => if decide (k' = k) then rest else (k', v) :: pop rest k
  end.

Section Session.
Context {Tr : Type} (T : Transport Tr) (N : Notifier Tr).

(** The controller: its profile, its manager, and [self._notify_handlers]
    (the callback kept for a characteristic is known by the characteristic
    it was made for). *)
Record Ring := mkRing {
  profile_address : str;
  ble : State Tr;
  _notify_handlers : list (str * str)
}.

(** A call on the manager, inside the controller. *)
Definition on_ble {X : Type} (m : Py.M (State Tr) X) : Py.M Ring X :=
  fun r => let '(out, b) := m (ble r) in
           (out, mkRing (profile_address r) b (_notify_handlers r)).

Definition no_address : Exception := RuntimeError (py "No BLE address set.").

Definition connect : Py.M Ring unit :=
  (address <- Py.gets profile_address ;;
   match address with
   | [] => Py.raise no_address
   | _ :: _ => on_ble (BLEManager.connect T address 12) ;;; Py.ret tt
   end)%py.

Definition disconnect : Py.M Ring unit := on_ble (BLEManager.disconnect T).

(** A notification call of the client, on the library state of the manager. *)
Definition notify_call (f : Tr -> result unit * Tr) : Py.M Ring unit :=
  on_ble (fun b => let '(out, w) := f (tr b) in
                   (out, mkState (_client b) w (trace b))).

(** [client.start_notify(char_uuid, _cb)] and [client.stop_notify(char_uuid)] *)
Definition client_start_notify (client : RingController.object) (char_uuid : str)
  : Py.M Ring unit :=
  match client with
  | RingController.Client c => notify_call (start_notify N c char_uuid)
  | _ => Py.raise (RingController.no_attribute client "start_notify")
  end.

Definition client_stop_notify (client : RingController.object) (char_uuid : str)
  : Py.M Ring unit :=
  match client with
  | RingController.Client c => notify_call (stop_notify N c char_uuid)
  | _ => Py.raise (RingController.no_attribute client "stop_notify")
  end.

Definition subscribe (char_uuid : str) : Py.M Ring unit :=
  (client <- Py.gets (fun r => RingController.ble_client (ble r)) ;;
   if RingController.is_None client then Py.raise RingController.not_connected
   else
     client_start_notify client char_uuid ;;;
     Py.modify (fun r => mkRing (profile_address r) (ble r)
                           (Dict.set (_notify_handlers r) char_uuid char_uuid)))%py.

Definition unsubscribe (char_uuid : str) : Py.M Ring unit :=
  (client <- Py.gets (fun r => RingController.ble_client (ble r)) ;;
   if RingController.is_None client then Py.ret tt
   else
     Py.try_except (client_stop_notify client char_uuid) (fun _ => Py.ret tt) ;;;
     Py.modify (fun r => mkRing (profile_address r) (ble r)
                           (pop (_notify_handlers r) char_uuid)))%py.

End Session.

Arguments Ring : clear implicits.

End RingSession.

(** ** llm/registry.py and the provider cycle of ui/main_window.py *)

Module ProviderRegistry.

(** [a < b] on strings: by code points, a proper prefix first. *)
Fixpoint str_ltb (a b : str) : bool :=
  match a, b with
  | _, [] => false
  | [], _ :: _ => true
  | x :: a', y :: b' => (x <? y)%N || ((x =? y)%N && str_ltb a' b')
  end.

(** [sorted(xs)] on strings: ascending, equal elements in their order. *)
Fixpoint insert_sorted (x : str) (l : list str) : list str :=
  match l with
  | [] => [x]
  | y :: rest => if str_ltb y x then y :: insert_sorted x rest else x :: l
  end.

Definition sorted (l : list str) : list str := fold_right insert_sorted [] l.

Section Registry.
(** A provider object and its [id] attribute. *)
Context {P : Type} (id_of : P -> str).

(** [self._providers[provider.id] = provider] *)
Definition register (provider : P) (providers : list (str * P)) : list (str * P) :=
  Dict.set providers (id_of provider) provider.

Definition get (providers : list (str * P)) (pid : str) : option P :=
  Dict.get providers pid.

Definition list_ids (providers : list (str * P)) : list str :=
  sorted (Dict.keys providers).

(** [[self._providers[k] for k in self.list_ids()]] *)
Definition list_providers (providers : list (str * P)) : list P :=
  omap (Dict.get providers) (list_ids providers).

End Registry.

(** [ids.index(cur)] when [cur in ids]. *)
Fixpoint index (cur : str) (ids : list str) : option nat :=
  match ids with
  | [] => None
  | x :: rest => if decide (x = cur) then Some O else S <$> index cur rest
  end.

(** The handler [_cycle_llm]: the new [self.active_llm_id], given the ids of
    the registry and the current one. *)
Definition _cycle_llm (ids : list str) (cur : str) : str :=
  match ids with
  | [] => cur
  | first :: _ =>
      match index cur ids with
      | Some i => default first (ids !! ((i + 1) mod length ids)%nat)
      | None => first
      end
  end.

End ProviderRegistry.

(** ** More concrete scenarios *)

Module Scenario2.

Import Scenario.

(** Action handlers that all return, each after writing its number. *)
Definition quiet_body (h : ActionRouter.ActionHandler) (arg : ActionRouter.payload_dict)
    (seen : list nat) : result unit * list nat :=
  (Return tt, seen ++ [h]).

(** A router with handler 0 for [noop] and handler 7 for [toggle_listen]. *)
Definition two_action_router : ActionRouter.Router (list nat) :=
  snd (ActionRouter.register_action_handler (py "noop") 0%nat one_action_router).

(** A table in which [button_single] triggers [noop], then [toggle_listen],
    and also [cycle_llm], which has no handler. *)
Definition shared_topic_table : MainWindow.Mappings :=
  [ (py "noop", [py "button_single"]);
    (py "toggle_listen", [py "button_single"; py "button_long"]);
    (py "cycle_llm", [py "button_single"]) ].

Definition payload_text (v : value) : str := py "payload".

Definition window : Bridge.Window (list nat) :=
  Bridge.mkWindow two_action_router shared_topic_table [].

(** A settings document with a theme and an [openai] section. *)
Definition settings : value :=
  VDict [ (py "theme", VStr (py "light"));
          (py "openai", VDict [ (py "api_key", VStr (py "sk-1")) ]) ].

(** The mappings tab of a window whose configuration is [AppConfig()], and
    that of a window whose table is the one of [__post_init__]. *)
Definition first_run_tab : MainWindow.Tab := MainWindow.opened None.
Definition default_tab : MainWindow.Tab := MainWindow.opened (Some default_table).

(** A manager that holds the client of the ring. *)
Definition connected : BLEManager.State nat :=
  BLEManager.mkState (Some ring_client) 1%nat [].

(** A BLE library that cannot resolve addresses but connects. *)
Definition unresolved : BLEManager.Transport nat :=
  BLEManager.mkTransport nat
    (fun w => (Return tt, w))
    (fun w => (Return tt, w))
    (fun _ w => ([], w))
    (fun _ w => w)
    (fun _ _ w => (Raise (attempt_error 9), w))
    (fun _ w => (Return tt, S w))
    (fun _ w => (Return tt, w))
    (fun _ w => (0 <? w)%nat)
    (fun _ _ => Return []).

(** A client whose [stop_notify] raises. *)
Definition touchy_notifier : RingSession.Notifier nat :=
  RingSession.mkNotifier nat
    (fun _ _ w => (Return tt, w))
    (fun _ _ w => (Raise boom, w)).

Definition ring : RingSession.Ring nat :=
  RingSession.mkRing ring_address connected [].

(** The same controller with a handler kept for characteristic [c1]. *)
Definition listening_ring : RingSession.Ring nat :=
  RingSession.mkRing ring_address connected [(py "c1", py "c1")].

(** The registry of the window: the three providers, known by their ids. *)
Definition three_providers : list (str * str) :=
  ProviderRegistry.register id (py "openai_compat")
    (ProviderRegistry.register id (py "ollama")
       (ProviderRegistry.register id (py "openai") [])).

End Scenario2.

(** * Properties *)

(** ** The event bus *)

Module EventBusFacts.

Import EventBus.

Section Facts.
Context {App : Type}.
Variable body : Handler -> value -> World App -> result unit * World App.

(** The loop of [publish] reaches its end whatever the handlers do, and
    records one call per handler of the list it was given, in order. *)
Lemma publish_loop (hs : list Handler) (payload : value) (r : Run App) :
  exists r' cs,
    Py.for_each hs (fun h => Py.try_except (await_handler body h payload)
                                           (fun _ => Py.ret tt)) r
    = (Return tt, r')
    /\ calls r' = calls r ++ cs
    /\ List.map who cs = List.map (fun h => (h, payload)) hs.
Proof.
  revert r. induction hs as [|h hs IH]; intros r.
  - exists r, []. cbn. rewrite app_nil_r. auto.
  - cbn [Py.for_each]. unfold Py.bind at 1, Py.try_except, await_handler.
    destruct (body h payload (world r)) as [out w'] eqn:Hb.
    set (r1 := mkRun w' (calls r ++ [(h, payload, out)])).
    destruct (IH r1) as (r' & cs & Hrun & Hcalls & Hwho).
    exists r', ((h, payload, out) :: cs).
    split; [|split].
    + destruct out; cbn; exact Hrun.
    + rewrite Hcalls. subst r1. cbn. rewrite <- app_assoc. reflexivity.
    + cbn. rewrite Hwho. reflexivity.
Qed.

Lemma subs_at_subscribe (topic : str) (h : Handler) (w : World App) :
  subs_at (subscribe_world topic h w) topic = subs_at w topic ++ [h].
Proof. unfold subs_at, subscribe_world. cbn. rewrite lookup_insert_eq. reflexivity. Qed.

Lemma subs_at_subscribe_ne (topic topic' : str) (h : Handler) (w : World App) :
  topic <> topic' ->
  subs_at (subscribe_world topic h w) topic' = subs_at w topic'.
Proof.
  intros Hne. unfold subs_at, subscribe_world. cbn.
  rewrite lookup_insert_ne by exact Hne. reflexivity.
Qed.

(** Subscribing a list of handlers one after the other. *)
Lemma subscribe_all (topic : str) (hs : list Handler) (r : Run App) :
  exists r',
    Py.for_each hs (subscribe topic) r = (Return tt, r')
    /\ calls r' = calls r
    /\ subs_at (world r') topic = subs_at (world r) topic ++ hs.
Proof.
  revert r. induction hs as [|h hs IH]; intros r.
  - exists r. cbn. rewrite app_nil_r. auto.
  - cbn [Py.for_each]. unfold Py.bind at 1, subscribe at 1, Py.modify.
    destruct (IH (mkRun (subscribe_world topic h (world r)) (calls r)))
      as (r' & Hrun & Hcalls & Hsubs).
    exists r'. split; [exact Hrun|]. split; [exact Hcalls|].
    rewrite Hsubs. cbn. rewrite subs_at_subscribe, <- app_assoc. reflexivity.
Qed.

(** A publication calls the handlers that the topic has when the call
    starts, and returns. *)
Lemma publish_calls (topic : str) (payload : value) (r : Run App) :
  exists r' cs,
    publish body topic payload r = (Return tt, r')
    /\ calls r' = calls r ++ cs
    /\ List.map who cs = List.map (fun h => (h, payload)) (subs_at (world r) topic).
Proof.
  unfold publish, Py.bind, Py.gets, subs_at.
  destruct (_subs (world r) !! topic) as [hs|]; cbn [default].
  - apply publish_loop.
  - exists r, []. cbn. rewrite app_nil_r. auto.
Qed.

Lemma invoked_app (r r' : Run App) (cs : list (Handler * value * result unit)) :
  calls r' = calls r ++ cs -> invoked r r' = List.map (fun c => fst (who c)) cs.
Proof.
  intros H. unfold invoked. rewrite H, drop_app_length. reflexivity.
Qed.

(** C1. On a topic whose handlers were subscribed in the order [hs] (after
    those it already had), [publish] invokes every one of them once, in
    subscription order and with the published payload, whichever of them
    raise, and itself returns normally. *)
Theorem publish_invokes_all_in_order
    (topic : str) (payload : value) (hs : list Handler) (r : Run App) :
  exists r0 r' cs,
    Py.for_each hs (subscribe topic) r = (Return tt, r0)
    /\ publish body topic payload r0 = (Return tt, r')
    /\ calls r' = calls r ++ cs
    /\ List.map who cs
       = List.map (fun h => (h, payload)) (subs_at (world r) topic ++ hs).
Proof.
  destruct (subscribe_all topic hs r) as (r0 & Hsub & Hc0 & Hs0).
  destruct (publish_calls topic payload r0) as (r' & cs & Hpub & Hc & Hw).
  exists r0, r', cs. rewrite <- Hs0, <- Hc0. auto.
Qed.

(** A handler that subscribes [h'] leaves it subscribed until the loop
    ends, when the other handlers do not touch the subscriptions. *)
Lemma loop_keeps_subscription
    (topic : str) (payload : value) (h h' : Handler) (hs : list Handler)
    (Hbody : forall w, body h payload w = (Return tt, subscribe_world topic h' w))
    (Hothers : forall g w, g ∈ hs -> g <> h -> _subs (snd (body g payload w)) = _subs w)
    (r : Run App) :
  h' ∈ subs_at (world r) topic \/ h ∈ hs ->
  h' ∈ subs_at (world (snd (Py.for_each hs
          (fun g => Py.try_except (await_handler body g payload)
                                  (fun _ => Py.ret tt)) r))) topic.
Proof.
  revert r. induction hs as [|g hs IH]; intros r Hor.
  - cbn. destruct Hor as [Hin|Hin]; [exact Hin|]. inversion Hin.
  - cbn [Py.for_each]. unfold Py.bind at 1, Py.try_except, await_handler.
    destruct (body g payload (world r)) as [out w'] eqn:Hb.
    assert (Hnext : h' ∈ subs_at w' topic \/ h ∈ hs).
    { destruct (decide (g = h)) as [->|Hne].
      - rewrite Hbody in Hb. injection Hb as <- <-. left.
        rewrite subs_at_subscribe. apply elem_of_app. right. constructor.
      - destruct Hor as [Hsub|Hin].
        + left. unfold subs_at.
          replace (_subs w') with (_subs (world r)); [exact Hsub|].
          symmetry. replace w' with (snd (body g payload (world r))) by (rewrite Hb; reflexivity).
          apply Hothers; [constructor|exact Hne].
        + right. apply elem_of_cons in Hin as [Heq|Hin]; [congruence|exact Hin]. }
    assert (IH' := IH (fun g' w Hg => Hothers g' w (list_elem_of_further _ _ _ Hg))
                      (mkRun w' (calls r ++ [(g, payload, out)])) Hnext).
    destruct out; cbn; exact IH'.
Qed.

(** C10. When a handler [h] of the topic subscribes a further handler [h']
    to the same topic while the publication runs, the publication still
    calls exactly the handlers that the topic had when it started: [h'] is
    not called, although it is subscribed when the publication returns (the
    other handlers leaving the subscriptions alone). *)
Theorem publish_iterates_snapshot
    (topic : str) (payload : value) (h h' : Handler) (r : Run App)
    (Hin : h ∈ subs_at (world r) topic)
    (Hfresh : h' ∉ subs_at (world r) topic)
    (Hbody : forall w, body h payload w = (Return tt, subscribe_world topic h' w))
    (Hothers : forall g w, g <> h -> _subs (snd (body g payload w)) = _subs w) :
  exists r',
    publish body topic payload r = (Return tt, r')
    /\ invoked r r' = subs_at (world r) topic
    /\ (h' ∉ invoked r r')
    /\ (h' ∈ subs_at (world r') topic).
Proof.
  destruct (publish_calls topic payload r) as (r' & cs & Hpub & Hc & Hw).
  exists r'. split; [exact Hpub|].
  assert (Hinv : invoked r r' = subs_at (world r) topic).
  { rewrite (invoked_app r r' cs Hc).
    rewrite <- (List.map_map who fst), Hw, List.map_map. cbn.
    apply List.map_id. }
  split; [exact Hinv|]. split; [rewrite Hinv; exact Hfresh|].
  replace r' with (snd (publish body topic payload r)) by (rewrite Hpub; reflexivity).
  unfold publish, Py.bind, Py.gets. unfold subs_at in Hin.
  destruct (_subs (world r) !! topic) as [hs|] eqn:Hl; cbn [default] in Hin.
  - apply (loop_keeps_subscription topic payload h h' hs Hbody).
    + intros g w _ Hne. apply Hothers, Hne.
    + right. exact Hin.
  - inversion Hin.
Qed.

End Facts.

Import Scenario.

Local Ltac by_compute := apply (bool_decide_unpack _); vm_compute; exact I.

(** Handler 1 raises; handlers 2 and 5, subscribed after it, are called all
    the same, and the publication returns. *)
Example publish_past_failing_handler :
  let '(r, bus) := publish bus_body (py "button_single") tap_payload wired_bus in
  r = Return tt
  /\ calls bus = [ (4%nat, tap_payload, Return tt); (1%nat, tap_payload, Raise boom);
                   (2%nat, tap_payload, Return tt); (5%nat, tap_payload, Return tt) ].
Proof. vm_compute. split; reflexivity. Qed.

(** Handler 3, subscribed by handler 2 during the first publication, is
    called from the second publication on. *)
Example publish_twice :
  let bus1 := snd (publish bus_body (py "button_single") tap_payload wired_bus) in
  let bus2 := snd (publish bus_body (py "button_single") tap_payload bus1) in
  invoked wired_bus bus1 = [4; 1; 2; 5]%nat
  /\ invoked bus1 bus2 = [4; 1; 2; 5; 3]%nat.
Proof. vm_compute. split; reflexivity. Qed.

(** Publishing on a topic that nobody subscribed to does nothing. *)
Example publish_unknown_topic :
  publish bus_body (py "raw_notify") VNone wired_bus = (Return tt, wired_bus).
Proof. vm_compute. reflexivity. Qed.

Lemma publish_iterates_snapshot_witness :
  exists bus,
    publish bus_body (py "button_single") tap_payload wired_bus = (Return tt, bus)
    /\ invoked wired_bus bus = subs_at (world wired_bus) (py "button_single")
    /\ (3%nat ∉ invoked wired_bus bus)
    /\ (3%nat ∈ subs_at (world bus) (py "button_single")).
Proof.
  apply (publish_iterates_snapshot bus_body (py "button_single") tap_payload 2%nat 3%nat).
  - by_compute.
  - by_compute.
  - intros w. reflexivity.
  - intros g w Hg. destruct g as [|[|[|g]]]; try reflexivity. destruct (Hg eq_refl).
Defined.

End EventBusFacts.

(** ** The action router *)

Module ActionRouterFacts.

Import ActionRouter.

Section Facts.
Context {App : Type}.
Variable body : ActionHandler -> payload_dict -> App -> result unit * App.

Lemma payload_or_default_nonempty (action : str) (payload : option payload_dict) :
  payload_or_default action payload <> [].
Proof. destruct payload as [[|kv d]|]; discriminate. Qed.

Lemma dispatch_registered (r : Router App) (action : str) (h : ActionHandler)
    (payload : option payload_dict) :
  _handlers r !! action = Some h ->
  dispatch body action payload r
  = await_handler body h (payload_or_default action payload) r.
Proof. intros H. unfold dispatch, Py.bind, Py.gets. rewrite H. reflexivity. Qed.

Lemma calls_await_handler (r : Router App) (h : ActionHandler) (arg : payload_dict) :
  calls (snd (await_handler body h arg r)) = calls r ++ [(h, arg)].
Proof. unfold await_handler. destruct (body h arg (app r)). reflexivity. Qed.

(** C8. Dispatching an action that has no handler returns normally and
    leaves the router, the application state and the record of calls as
    they were.  After two registrations under one name, a dispatch calls
    the handler registered last, once, and no other. *)
Theorem dispatch_unregistered_and_last_wins :
  (forall (r : Router App) (action : str) (payload : option payload_dict),
      _handlers r !! action = None ->
      dispatch body action payload r = (Return tt, r))
  /\ (forall (r : Router App) (action : str) (h1 h2 : ActionHandler)
             (payload : option payload_dict),
        let r1 := snd (register_action_handler action h1 r) in
        let r2 := snd (register_action_handler action h2 r1) in
        _handlers r2 !! action = Some h2
        /\ calls (snd (dispatch body action payload r2))
           = calls r ++ [(h2, payload_or_default action payload)]
        /\ fst (dispatch body action payload r2)
           = fst (body h2 (payload_or_default action payload) (app r))).
Proof.
  split.
  - intros r action payload H. unfold dispatch, Py.bind, Py.gets.
    rewrite H. reflexivity.
  - intros r action h1 h2 payload r1 r2.
    assert (H2 : _handlers r2 !! action = Some h2).
    { subst r2 r1. cbn. apply lookup_insert_eq. }
    split; [exact H2|].
    rewrite (dispatch_registered r2 action h2 payload H2).
    split.
    + rewrite calls_await_handler. reflexivity.
    + unfold await_handler. subst r2 r1. cbn.
      destruct (body h2 (payload_or_default action payload) (app r)). reflexivity.
Qed.

(** C9. A registered handler that is dispatched with the empty [dict] is
    called with [{"action": action}], exactly as when the payload is left
    out; whatever payload is passed, the [dict] that the handler receives
    is not empty. *)
Theorem dispatch_falsy_payload_defaults
    (r : Router App) (action : str) (h : ActionHandler)
    (Hreg : _handlers r !! action = Some h) :
  calls (snd (dispatch body action (Some []) r))
  = calls r ++ [(h, [(py "action", VStr action)])]
  /\ dispatch body action (Some []) r = dispatch body action None r
  /\ forall payload : option payload_dict,
       exists arg, calls (snd (dispatch body action payload r)) = calls r ++ [(h, arg)]
                   /\ arg <> [].
Proof.
  split; [|split].
  - rewrite (dispatch_registered r action h _ Hreg), calls_await_handler. reflexivity.
  - rewrite !(dispatch_registered r action h _ Hreg). reflexivity.
  - intros payload. exists (payload_or_default action payload). split.
    + rewrite (dispatch_registered r action h _ Hreg), calls_await_handler. reflexivity.
    + apply payload_or_default_nonempty.
Qed.

End Facts.

Import Scenario.

Lemma dispatch_unregistered_and_last_wins_witness :
  dispatch action_body (py "cycle_llm") None one_action_router = (Return tt, one_action_router).
Proof.
  apply (proj1 (dispatch_unregistered_and_last_wins action_body)).
  vm_compute. reflexivity.
Defined.

(** Two registrations under one name: the second handler is the one called. *)
Example dispatch_after_two_registrations :
  let r1 := snd (register_action_handler (py "toggle_listen") 8%nat one_action_router) in
  dispatch action_body (py "toggle_listen") None r1
  = (Return tt,
     mkRouter (_handlers r1) [8%nat] [(8%nat, [(py "action", VStr (py "toggle_listen"))])]).
Proof. vm_compute. reflexivity. Qed.

(** The router does not catch what a handler raises. *)
Example dispatch_failing_handler :
  let r1 := snd (register_action_handler (py "noop") 0%nat empty_router) in
  fst (dispatch action_body (py "noop") None r1) = Raise boom.
Proof. vm_compute. reflexivity. Qed.

Lemma dispatch_falsy_payload_defaults_witness :
  calls (snd (dispatch action_body (py "toggle_listen") (Some []) one_action_router))
  = [(7%nat, [(py "action", VStr (py "toggle_listen"))])].
Proof.
  apply (proj1 (dispatch_falsy_payload_defaults action_body one_action_router
                  (py "toggle_listen") 7%nat eq_refl)).
Defined.

End ActionRouterFacts.

(** ** Loading the configuration *)

Module ConfigFacts.

Import Config.

Section Facts.
Variable repr : value -> str.

Lemma load_config_missing : load_config repr None = Return AppConfig_default.
Proof. reflexivity. Qed.

Lemma load_config_unparsable (e : Exception) :
  load_config repr (Some (Raise e)) = Return AppConfig_default.
Proof. reflexivity. Qed.

(** The configuration of a first run has no mapping table: [__post_init__]
    did not run. *)
Lemma default_config_has_no_table : mappings AppConfig_default = None.
Proof. reflexivity. Qed.

Lemma post_init_table :
  mappings (__post_init__ AppConfig_default) = Some default_mappings.
Proof. reflexivity. Qed.

Lemma load_config_object (d : list (str * value)) :
  load_config repr (Some (Return (VDict d))) = Raise (takes_no_arguments "AppConfig").
Proof. reflexivity. Qed.

(** X10. [load_config] returns only for a file that is missing or that
    cannot be read or parsed, and then it returns [AppConfig()], whose
    mapping table is [None]; for every file that parses it raises:
    [TypeError] from the call of [AppConfig] when the document is an object,
    [AttributeError] from [raw.get] when it is anything else. *)
Theorem load_config_outcomes (file : persisted) :
  match file with
  | None | Some (Raise _) =>
      load_config repr file = Return AppConfig_default
      /\ mappings AppConfig_default = None
  | Some (Return (VDict _)) =>
      load_config repr file = Raise (takes_no_arguments "AppConfig")
  | Some (Return _) =>
      load_config repr file = Raise (AttributeError (py "object has no attribute 'get'"))
  end.
Proof. destruct file as [[[]|e]|]; try reflexivity; split; reflexivity. Qed.

(** [save_config] never returns, whatever the configuration. *)
Lemma save_config_raises {C : Type} (mkdir : result unit) (cfg : C) :
  save_config mkdir cfg = Raise (save_config_error mkdir).
Proof. destruct mkdir as [[]|e]; reflexivity. Qed.

(** C6. A settings file that holds the JSON text [[]] parses without error
    to an empty list, and [load_config] then raises [AttributeError]
    instead of falling back to the defaults. *)
Theorem load_config_crashes_on_json_array :
  load_config repr (Some (Return (VList [])))
  = Raise (AttributeError (py "object has no attribute 'get'")).
Proof. reflexivity. Qed.

End Facts.

(** A settings file that holds a JSON object is not loaded either. *)
Example load_settings_document :
  load_config Scenario2.payload_text (Some (Return Scenario2.settings))
  = Raise (TypeError (py "AppConfig() takes no arguments")).
Proof. vm_compute. reflexivity. Qed.

End ConfigFacts.

(** ** Dictionaries *)

Module DictFacts.

Section Facts.
Context {V : Type}.
Implicit Types (d : list (str * V)) (k : str) (v : V).

Lemma get_set d k v k' :
  Dict.get (Dict.set d k v) k' = if decide (k = k') then Some v else Dict.get d k'.
Proof.
  induction d as [|[k0 v0] d IH]; cbn.
  - repeat case_decide; congruence.
  - repeat (case_decide; cbn); try congruence.
Qed.

Lemma keys_set d k v k' :
  k' ∈ Dict.keys (Dict.set d k v) <-> k' = k \/ k' ∈ Dict.keys d.
Proof.
  unfold Dict.keys. induction d as [|[k0 v0] d IH]; cbn.
  - rewrite list_elem_of_singleton. split; [auto|]. intros [H|H]; [exact H|inversion H].
  - case_decide; cbn; rewrite !elem_of_cons; [subst; tauto|].
    rewrite IH. tauto.
Qed.

Lemma keys_set_NoDup d k v : NoDup (Dict.keys d) -> NoDup (Dict.keys (Dict.set d k v)).
Proof.
  unfold Dict.keys. induction d as [|[k0 v0] d IH]; cbn; intros Hnd.
  - repeat constructor. intros H; inversion H.
  - apply NoDup_cons in Hnd as [Hnot Hnd].
    case_decide; cbn; apply NoDup_cons; split; auto.
    intros Hin. apply (keys_set d k v k0) in Hin as [Heq|Hin]; [congruence|].
    exact (Hnot Hin).
Qed.

Lemma get_Some_elem d k v : Dict.get d k = Some v -> (k, v) ∈ d.
Proof.
  induction d as [|[k0 v0] d IH]; cbn; [discriminate|].
  case_decide; intros Hget.
  - injection Hget as <-. subst. constructor.
  - apply list_elem_of_further, IH, Hget.
Qed.

Lemma get_None_keys d k : Dict.get d k = None <-> k ∉ Dict.keys d.
Proof.
  unfold Dict.keys. induction d as [|[k0 v0] d IH]; cbn.
  - split; [intros _ H; inversion H|reflexivity].
  - rewrite not_elem_of_cons. case_decide; [subst|]; split; try discriminate.
    + intros [Hk _]. congruence.
    + intros Hk. split; [congruence|]. apply IH, Hk.
    + intros [_ Hk]. apply IH, Hk.
Qed.

Lemma elem_get d k v : NoDup (Dict.keys d) -> (k, v) ∈ d -> Dict.get d k = Some v.
Proof.
  unfold Dict.keys. induction d as [|[k0 v0] d IH]; cbn; intros Hnd Hin; [inversion Hin|].
  apply NoDup_cons in Hnd as [Hnot Hnd].
  apply elem_of_cons in Hin as [Heq|Hin].
  - injection Heq as -> ->. case_decide; congruence.
  - case_decide; [|auto]. subst. exfalso. apply Hnot.
    change k with (fst (k, v)). apply list_elem_of_fmap_2. exact Hin.
Qed.

Lemma get_setdefault d k v k' :
  Dict.get (Dict.setdefault d k v) k'
  = match Dict.get d k' with
    | Some x => Some x
    | None => if decide (k = k') then Some v else None
    end.
Proof.
  unfold Dict.setdefault. destruct (Dict.get d k) as [x|] eqn:Hk.
  - destruct (Dict.get d k') eqn:Hk'; [reflexivity|].
    case_decide; congruence.
  - clear Hk. induction d as [|[k0 v0] d IH]; cbn.
    + repeat case_decide; congruence.
    + destruct (decide (k0 = k')); [reflexivity|]. apply IH.
Qed.

Lemma keys_setdefault_NoDup d k v :
  NoDup (Dict.keys d) -> NoDup (Dict.keys (Dict.setdefault d k v)).
Proof.
  intros Hnd. unfold Dict.setdefault. destruct (Dict.get d k) eqn:Hk; [exact Hnd|].
  unfold Dict.keys in *. rewrite map_app. cbn.
  apply NoDup_app. split; [exact Hnd|]. split.
  - intros x Hx Hx'. apply list_elem_of_singleton in Hx'. subst.
    apply get_None_keys in Hk. exact (Hk Hx).
  - repeat constructor. intros H; inversion H.
Qed.

End Facts.

End DictFacts.

(** ** The BLE manager *)

Module BLEManagerFacts.

Import BLEManager.

Section SortFacts.
Context {A : Type} (key : A -> Z).

Lemma insert_desc_perm (x : A) (l : list A) :
  Permutation (insert_desc key x l) (x :: l).
Proof.
  induction l as [|y l IH]; cbn; [reflexivity|].
  destruct (key x <? key y); [|reflexivity].
  rewrite IH. apply perm_swap.
Qed.


Lemma insert_desc_sorted (x : A) (l : list A) :
  StronglySorted (fun a b => key b <= key a) l ->
  StronglySorted (fun a b => key b <= key a) (insert_desc key x l).
Proof.
  induction l as [|y l IH]; cbn; intros Hs.
  - repeat constructor.
  - apply StronglySorted_inv in Hs as [Hs Hall].
    destruct (key x <? key y) eqn:Hlt.
    + apply Z.ltb_lt in Hlt. constructor; [apply IH, Hs|].
      apply (Permutation_Forall (Permutation_sym (insert_desc_perm x l))).
      constructor; [lia|exact Hall].
    + apply Z.ltb_ge in Hlt. constructor; [constructor; assumption|].
      constructor; [exact Hlt|].
      eapply Forall_impl; [exact Hall|]. cbn. intros z Hz. lia.
Qed.

Lemma sort_desc_sorted (l : list A) :
  StronglySorted (fun a b => key b <= key a) (sort_desc key l).
Proof.
  induction l as [|x l IH]; cbn; [constructor|].
  apply insert_desc_sorted, IH.
Qed.

(** Elements of equal key keep their order. *)
Lemma insert_desc_stable (k : Z) (x : A) (l : list A) :
  List.filter (fun a => key a =? k) (insert_desc key x l)
  = List.filter (fun a => key a =? k) (x :: l).
Proof.
  induction l as [|y l IH]; [reflexivity|].
  cbn [insert_desc]. destruct (key x <? key y) eqn:Hlt; [|reflexivity].
  apply Z.ltb_lt in Hlt. cbn [List.filter] in *. rewrite IH.
  destruct (key y =? k) eqn:Hy, (key x =? k) eqn:Hx; try reflexivity.
  apply Z.eqb_eq in Hy, Hx. lia.
Qed.

Lemma sort_desc_stable (k : Z) (l : list A) :
  List.filter (fun a => key a =? k) (sort_desc key l)
  = List.filter (fun a => key a =? k) l.
Proof.
  induction l as [|x l IH]; [reflexivity|].
  cbn [sort_desc fold_right]. rewrite insert_desc_stable.
  cbn [List.filter]. fold (sort_desc key l). rewrite IH. reflexivity.
Qed.

End SortFacts.

Section ScanFacts.
Implicit Types (observed : list (BLEDevice * AdvertisementData)).
Implicit Types (found : list (str * (BLEDevice * AdvertisementData))).

Lemma found_get observed found (addr : str) :
  Dict.get (fold_left _cb observed found) addr
  = match last_seen observed addr with
    | Some seen => Some seen
    | None => Dict.get found addr
    end.
Proof.
  revert found. induction observed as [|seen later IH]; intros found; [reflexivity|].
  cbn [fold_left last_seen]. rewrite IH.
  destruct (last_seen later addr); [reflexivity|].
  unfold _cb. rewrite DictFacts.get_set.
  destruct (decide (dev_address (fst seen) = addr)); reflexivity.
Qed.

Lemma found_NoDup observed found :
  NoDup (Dict.keys found) -> NoDup (Dict.keys (fold_left _cb observed found)).
Proof.
  revert found. induction observed as [|seen later IH]; intros found Hnd; [exact Hnd|].
  cbn [fold_left]. apply IH, DictFacts.keys_set_NoDup, Hnd.
Qed.

Lemma last_seen_address observed (addr : str) (seen : BLEDevice * AdvertisementData) :
  last_seen observed addr = Some seen -> seen ∈ observed /\ dev_address (fst seen) = addr.
Proof.
  induction observed as [|s later IH]; cbn; [discriminate|].
  destruct (last_seen later addr) as [q|].
  - intros Hq. destruct (IH Hq) as [Hin Ha]. split; [right; exact Hin|exact Ha].
  - case_decide; [|discriminate]. intros [= <-]. split; [left|assumption].
Qed.

Lemma last_seen_None observed (addr : str) :
  last_seen observed addr = None <-> addr ∉ List.map (fun s => dev_address (fst s)) observed.
Proof.
  induction observed as [|s later IH]; cbn.
  - split; [intros _ H; inversion H|reflexivity].
  - rewrite not_elem_of_cons, <- IH.
    destruct (last_seen later addr); [split; [discriminate|intros [_ ?]; discriminate]|].
    case_decide; split; try discriminate; try tauto.
    + intros [Hne _]. congruence.
    + intros _. split; [congruence|reflexivity].
Qed.

Lemma set_not_empty {V : Type} (d : list (str * V)) (k : str) (v : V) :
  Dict.set d k v <> [].
Proof. destruct d as [|[k' v'] d]; cbn; [discriminate|]. case_decide; discriminate. Qed.

(** Once an advertisement was heard, the dictionary of the callback has an
    entry. *)
Lemma found_not_empty observed found :
  observed <> [] \/ found <> [] -> fold_left _cb observed found <> [].
Proof.
  revert found. induction observed as [|seen later IH]; intros found H.
  - destruct H as [H|H]; [destruct (H eq_refl)|exact H].
  - cbn [fold_left]. apply IH. right. apply set_not_empty.
Qed.

(** The loop that builds the result stops at its first entry. *)
Lemma collect_raises (items : list (str * (BLEDevice * AdvertisementData))) :
  collect items = match items with
                  | [] => Return []
                  | _ :: _ => Raise (takes_no_arguments "DiscoveredDevice")
                  end.
Proof. destruct items as [|[addr [dev adv]] rest]; reflexivity. Qed.

Lemma scan_result_outcome observed :
  scan_result observed = match observed with
                         | [] => Return []
                         | _ :: _ => Raise (takes_no_arguments "DiscoveredDevice")
                         end.
Proof.
  unfold scan_result. rewrite collect_raises.
  destruct observed as [|seen later]; [reflexivity|].
  assert (Hne : fold_left _cb (seen :: later) [] <> []).
  { apply found_not_empty. left. discriminate. }
  destruct (fold_left _cb (seen :: later) []); [destruct (Hne eq_refl)|reflexivity].
Qed.

End ScanFacts.

Section ManagerFacts.
Context {Tr : Type} (T : Transport Tr).

(** C4. When the scanner starts and stops without error, [scan] returns
    the empty list only when nothing was heard.  As soon as one
    advertisement was heard, the construction of the first entry raises
    [TypeError] (the class [DiscoveredDevice] takes no arguments), after the
    scanner was stopped: no list of devices is returned. *)
Theorem scan_raises_once_heard
    (seconds : Q) (s : State Tr) (w1 w2 w3 : Tr)
    (observed : list (BLEDevice * AdvertisementData))
    (Hstart : scanner_start T (tr s) = (Return tt, w1))
    (Hsleep : sleep_scanning T seconds w1 = (observed, w2))
    (Hstop : scanner_stop T w2 = (Return tt, w3)) :
  scan T seconds s
  = (match observed with
     | [] => Return []
     | _ :: _ => Raise (takes_no_arguments "DiscoveredDevice")
     end,
     mkState (_client s) w3 (trace s ++ [ScannerStart; Sleep seconds; ScannerStop])).
Proof.
  unfold scan, Py.bind, Py.try_finally, call, Py.ret. cbn.
  rewrite Hstart. cbn. rewrite Hsleep. cbn. rewrite Hstop.
  rewrite scan_result_outcome, <- !app_assoc. reflexivity.
Qed.

(** The retry of [connect]: one pause of half a second, one new resolution
    of the address, and at most one more connection attempt. *)
Lemma second_attempt_trace (address : str) (timeout : Q) (s s' : State Tr)
    (r : result BleakClient) :
  second_attempt T address timeout s = (r, s') ->
  (trace s' = trace s ++ [Sleep (1 # 2); FindDevice address timeout]
   /\ exists e, r = Raise e)
  \/ exists device2,
       trace s' = trace s ++ [Sleep (1 # 2); FindDevice address timeout;
                              Connect (mkBleakClient (device_or device2 address) timeout)]
       /\ forall c, r = Return c -> c = mkBleakClient (device_or device2 address) timeout.
Proof.
  unfold second_attempt, Py.bind, find_device, do_connect, call, Py.ret. cbn.
  destruct (find_device_by_address T address timeout (sleep T (1 # 2) (tr s)))
    as [[device2|e] w] eqn:Hf; cbn.
  - destruct (client_connect T _ w) as [[[]|e] w'] eqn:Hc; cbn;
      intros [= <- <-]; right; exists device2; cbn; rewrite <- !app_assoc;
      (split; [reflexivity|]); intros c Hc'; congruence.
  - intros [= <- <-]. left. cbn. rewrite <- !app_assoc. eauto.
Qed.

(** C3. When the first connection attempt fails with [e1], [connect] makes
    one retry (half a second of back-off, a new resolution of the address,
    a new client).  If the retry connects and the client reports that it is
    connected, [connect] returns that client and keeps it; if the retry
    raises, whatever it raises, [connect] raises [e1]. *)
Theorem connect_retries_once_keeps_first_error
    (address : str) (timeout : Q) (s s0 s1 s2 : State Tr)
    (device : option BLEDevice) (e1 : Exception)
    (Hdisc : disconnect T s = (Return tt, s0))
    (Hfind : Py.try_except (find_device T address timeout) (fun _ => Py.ret None) s0
             = (Return device, s1))
    (Hfirst : do_connect T (mkBleakClient (device_or device address) timeout) s1
              = (Raise e1, s2)) :
  (forall client2 s3,
      second_attempt T address timeout s2 = (Return client2, s3) ->
      is_connected T client2 (tr s3) = true ->
      connect T address timeout s
      = (Return client2, mkState (Some client2) (tr s3) (trace s3))
      /\ exists device2,
           client2 = mkBleakClient (device_or device2 address) timeout
           /\ trace s3 = trace s2 ++ [Sleep (1 # 2); FindDevice address timeout;
                                       Connect client2])
  /\ (forall e2 s3,
        second_attempt T address timeout s2 = (Raise e2, s3) ->
        connect T address timeout s = (Raise e1, s3)
        /\ (trace s3 = trace s2 ++ [Sleep (1 # 2); FindDevice address timeout]
            \/ exists client2,
                 trace s3 = trace s2 ++ [Sleep (1 # 2); FindDevice address timeout;
                                         Connect client2])).
Proof.
  split.
  - intros client2 s3 Hsecond Hconn. split.
    + unfold connect, Py.bind. rewrite Hdisc, Hfind.
      unfold Py.try_except at 1. rewrite Hfirst.
      unfold Py.try_except at 1. rewrite Hsecond.
      unfold Py.gets. rewrite Hconn. reflexivity.
    + destruct (second_attempt_trace address timeout s2 s3 _ Hsecond)
        as [[_ [e He]]|(device2 & Ht & Hc)]; [discriminate|].
      exists device2. pose proof (Hc client2 eq_refl) as Hc2.
      split; [exact Hc2|]. rewrite Ht, Hc2. reflexivity.
  - intros e2 s3 Hsecond. split.
    + unfold connect, Py.bind. rewrite Hdisc, Hfind.
      unfold Py.try_except at 1. rewrite Hfirst.
      unfold Py.try_except at 1. rewrite Hsecond. reflexivity.
    + destruct (second_attempt_trace address timeout s2 s3 _ Hsecond)
        as [[Ht _]|(device2 & Ht & _)]; [left; exact Ht|right; eauto].
Qed.

End ManagerFacts.

Import Scenario.

Lemma scan_raises_once_heard_witness :
  scan (flaky 0 heard_ABA) 5 idle
  = (Raise (takes_no_arguments "DiscoveredDevice"),
     mkState None O [ScannerStart; Sleep 5; ScannerStop]).
Proof.
  apply (scan_raises_once_heard (flaky 0 heard_ABA) 5 idle O O O heard_ABA); reflexivity.
Defined.

(** The scan scenario: A at -40, B at -70, A again at -38.  The callback
    keeps the last advertisement of each address, and the scan raises. *)
Example scan_ABA :
  Dict.keys (fold_left _cb heard_ABA []) = [py "A"; py "B"]
  /\ fst (scan (flaky 0 heard_ABA) 5 idle)
     = Raise (TypeError (py "DiscoveredDevice() takes no arguments")).
Proof. split; vm_compute; reflexivity. Qed.

Example scan_nothing_heard : fst (scan (flaky 0 []) 5 idle) = Return [].
Proof. vm_compute. reflexivity. Qed.

Lemma connect_retries_once_keeps_first_error_witness :
  connect (flaky 1 []) ring_address 12 idle
  = (Return ring_client,
     mkState (Some ring_client) 2%nat
       [ FindDevice ring_address 12; Connect ring_client; Sleep (1 # 2);
         FindDevice ring_address 12; Connect ring_client ]).
Proof.
  refine (proj1 (proj1 (connect_retries_once_keeps_first_error (flaky 1 []) ring_address 12
                          idle idle
                          (mkState None 0%nat [FindDevice ring_address 12])
                          (mkState None 1%nat [FindDevice ring_address 12; Connect ring_client])
                          (Some (mkBLEDevice ring_address (Some (py "Ring"))))
                          (attempt_error 0) eq_refl eq_refl eq_refl)
                       ring_client
                       (mkState None 2%nat
                          [ FindDevice ring_address 12; Connect ring_client; Sleep (1 # 2);
                            FindDevice ring_address 12; Connect ring_client ])
                       eq_refl eq_refl)).
Defined.

(** Both attempts fail, each with its own error: the caller gets the first. *)
Example connect_two_failures :
  fst (connect (flaky 2 []) ring_address 12 idle) = Raise (attempt_error 0)
  /\ attempt_error 0 <> attempt_error 1.
Proof. split; [vm_compute; reflexivity|discriminate]. Qed.

(** A first attempt that succeeds is the only one. *)
Example connect_first_time :
  connect (flaky 0 []) ring_address 12 idle
  = (Return ring_client,
     mkState (Some ring_client) 1%nat [FindDevice ring_address 12; Connect ring_client]).
Proof. vm_compute. reflexivity. Qed.

End BLEManagerFacts.

(** ** The ring controller *)

Module RingControllerFacts.

Import BLEManager RingController.

Section GattFacts.
Context {Tr : Type} (T : Transport Tr).

Lemma call_client {A} (c : Call) (f : Tr -> result A * Tr) (s : State Tr) :
  _client (snd (call c f s)) = _client s.
Proof. unfold call. destruct (f (tr s)). reflexivity. Qed.

(** After [disconnect] the manager holds no client, whether the library
    call returned or raised. *)
Lemma disconnect_no_client (s : State Tr) : _client (snd (disconnect T s)) = None.
Proof.
  unfold disconnect, Py.bind, Py.gets. destruct (_client s) as [cl|] eqn:Hc; cbn.
  - unfold Py.try_finally, call. destruct (client_disconnect T cl (tr s)); reflexivity.
  - exact Hc.
Qed.

(** [connect] keeps a client exactly when it returns one. *)
Lemma connect_client (address : str) (timeout : Q) (s : State Tr) :
  match fst (connect T address timeout s) with
  | Return c => _client (snd (connect T address timeout s)) = Some c
  | Raise _ => _client (snd (connect T address timeout s)) = None
  end.
Proof.
  pose proof (disconnect_no_client s) as Hd.
  unfold connect, Py.bind.
  destruct (disconnect T s) as [[[]|e] s0]; cbn in Hd |- *; [|exact Hd].
  unfold second_attempt, Py.try_except, find_device, do_connect, Py.bind, call,
    Py.ret, Py.raise, Py.gets, set_client, Py.modify. cbn.
  repeat match goal with
         | |- context [find_device_by_address T ?a ?t ?w] =>
             destruct (find_device_by_address T a t w) as [[?|?] ?]; cbn
         | |- context [client_connect T ?c ?w] =>
             destruct (client_connect T c w) as [[[]|?] ?]; cbn
         | |- context [is_connected T ?c ?w] =>
             destruct (is_connected T c w); cbn
         end; auto.
Qed.

(** C7. [gatt_summary] raises [AttributeError] in every state of the
    manager, connected or not: [self.ble.client] is the bound method, which
    is not [None] and has no attribute [services].  It never returns the
    empty list, and it changes nothing. *)
Theorem gatt_summary_always_raises (s : State Tr) :
  gatt_summary T s
  = (Raise (AttributeError (py "'function' object has no attribute 'services'")), s).
Proof. reflexivity. Qed.

(** The method itself, had it been called, gives what the manager holds. *)
Lemma client_call (s : State Tr) : BLEManager.client s = (Return (_client s), s).
Proof. reflexivity. Qed.

End GattFacts.

Section NotifyFacts.
Variable lower : str -> str.

Local Ltac two_tokens :=
  let H1 := fresh "H" in
  let H2 := fresh "H" in
  intros H1 H2; apply list_elem_of_In in H1, H2;
  unfold single_tokens, double_tokens, long_tokens in H1, H2; cbn in H1, H2;
  repeat (destruct H1 as [H1|H1]); try contradiction; subst;
  repeat (destruct H2 as [H2|H2]); try contradiction; discriminate.

Lemma single_not_double (txt : str) : txt ∈ single_tokens -> txt ∈ double_tokens -> False.
Proof. two_tokens. Qed.

Lemma single_not_long (txt : str) : txt ∈ single_tokens -> txt ∈ long_tokens -> False.
Proof. two_tokens. Qed.

Lemma double_not_long (txt : str) : txt ∈ double_tokens -> txt ∈ long_tokens -> False.
Proof. two_tokens. Qed.

Lemma gesture_topic_not_raw (topic : str) (payload : value) (ev : str * value) :
  topic ∈ [py "button_single"; py "button_double"; py "button_long"] ->
  ev ∈ [(topic, payload)] -> fst ev <> py "raw_notify".
Proof.
  intros Ht Hev. apply list_elem_of_singleton in Hev. subst ev. cbn [fst].
  apply list_elem_of_In in Ht. cbn in Ht.
  repeat (destruct Ht as [Ht|Ht]); try contradiction; subst; discriminate.
Qed.

(** C2. For every payload the callback schedules the [raw_notify]
    publication first and exactly once, then at most one gesture
    publication; there is one exactly when the decoded (invalid bytes
    dropped, never an error), stripped and lower-cased text is one of the
    nine tokens, and its topic is [button_single], [button_double] or
    [button_long] according to the token. *)
Theorem notification_emits_raw_then_gesture (char_uuid : str) (data : list Byte.byte) :
  let txt := lower (Str.strip (Str.decode_ignore data)) in
  exists gesture,
    _cb lower char_uuid data
    = (py "raw_notify", VDict [ (py "uuid", VStr char_uuid);
                                (py "data_hex", VStr (Str.hex data)) ]) :: gesture
    /\ (length gesture <= 1)%nat
    /\ (forall ev, ev ∈ gesture -> fst ev <> py "raw_notify")
    /\ (gesture <> []
        <-> txt ∈ [ py "single"; py "button_single"; py "tap";
                    py "double"; py "button_double"; py "dbl";
                    py "long"; py "button_long"; py "hold" ])
    /\ (txt ∈ [py "single"; py "button_single"; py "tap"] ->
        gesture = [(py "button_single", VDict [(py "uuid", VStr char_uuid);
                                               (py "text", VStr txt)])])
    /\ (txt ∈ [py "double"; py "button_double"; py "dbl"] ->
        gesture = [(py "button_double", VDict [(py "uuid", VStr char_uuid);
                                               (py "text", VStr txt)])])
    /\ (txt ∈ [py "long"; py "button_long"; py "hold"] ->
        gesture = [(py "button_long", VDict [(py "uuid", VStr char_uuid);
                                             (py "text", VStr txt)])]).
Proof.
  intros txt. unfold _cb. fold (decoded_text lower data).
  change (decoded_text lower data) with txt.
  change [py "single"; py "button_single"; py "tap"; py "double"; py "button_double";
          py "dbl"; py "long"; py "button_long"; py "hold"]
    with (single_tokens ++ double_tokens ++ long_tokens).
  change [py "single"; py "button_single"; py "tap"] with single_tokens.
  change [py "double"; py "button_double"; py "dbl"] with double_tokens.
  change [py "long"; py "button_long"; py "hold"] with long_tokens.
  fold (gesture_payload char_uuid txt).
  eexists. split; [reflexivity|]. rewrite !elem_of_app.
  destruct (decide (txt ∈ single_tokens)) as [H1|H1];
    [rewrite (bool_decide_eq_true_2 _ H1)|rewrite (bool_decide_eq_false_2 _ H1);
     destruct (decide (txt ∈ double_tokens)) as [H2|H2];
     [rewrite (bool_decide_eq_true_2 _ H2)|rewrite (bool_decide_eq_false_2 _ H2);
      destruct (decide (txt ∈ long_tokens)) as [H3|H3];
      [rewrite (bool_decide_eq_true_2 _ H3)|rewrite (bool_decide_eq_false_2 _ H3)]]].
  - split; [cbn; lia|]. split.
    { intros ev. apply gesture_topic_not_raw. repeat constructor. }
    split; [split; [tauto|discriminate]|].
    split; [reflexivity|].
    split; intros H; exfalso;
      [exact (single_not_double txt H1 H)|exact (single_not_long txt H1 H)].
  - split; [cbn; lia|]. split.
    { intros ev. apply gesture_topic_not_raw. repeat constructor. }
    split; [split; [tauto|discriminate]|].
    split; [intros H; destruct (H1 H)|].
    split; [reflexivity|].
    intros H; exfalso. exact (double_not_long txt H2 H).
  - split; [cbn; lia|]. split.
    { intros ev. apply gesture_topic_not_raw. repeat constructor. }
    split; [split; [tauto|discriminate]|].
    split; [intros H; destruct (H1 H)|].
    split; [intros H; destruct (H2 H)|reflexivity].
  - split; [cbn; lia|]. split.
    { intros ev Hev. inversion Hev. }
    split; [split; [intros H; destruct (H eq_refl)|tauto]|].
    split; [intros H; destruct (H1 H)|].
    split; [intros H; destruct (H2 H)|intros H; destruct (H3 H)].
Qed.

End NotifyFacts.

Import Scenario.

(** Never connected, and right after a connection: the same error. *)
Example gatt_summary_idle :
  fst (gatt_summary (flaky 0 []) idle)
  = Raise (AttributeError (py "'function' object has no attribute 'services'")).
Proof. vm_compute. reflexivity. Qed.

Example gatt_summary_after_connect :
  _client (snd (connect (flaky 0 []) ring_address 12 idle)) = Some ring_client
  /\ fst (gatt_summary (flaky 0 []) (snd (connect (flaky 0 []) ring_address 12 idle)))
     = Raise (AttributeError (py "'function' object has no attribute 'services'")).
Proof. split; vm_compute; reflexivity. Qed.

(** Surrounding white space and capitals do not matter. *)
Example notify_tap :
  _cb Str.ascii_lower (py "c1") (Str.bytes_of "  TAP ")
  = [ (py "raw_notify", VDict [ (py "uuid", VStr (py "c1"));
                                (py "data_hex", VStr (py "202054415020")) ]);
      (py "button_single", VDict [ (py "uuid", VStr (py "c1"));
                                   (py "text", VStr (py "tap")) ]) ].
Proof. vm_compute. reflexivity. Qed.

(** Bytes that are not UTF-8 are dropped and the rest is matched. *)
Example notify_invalid_bytes :
  _cb Str.ascii_lower (py "c1")
      ([Byte.xff; Byte.xc3] ++ Str.bytes_of "hold" ++ [Byte.xe2; Byte.x82])
  = [ (py "raw_notify", VDict [ (py "uuid", VStr (py "c1"));
                                (py "data_hex", VStr (py "ffc3686f6c64e282")) ]);
      (py "button_long", VDict [ (py "uuid", VStr (py "c1"));
                                 (py "text", VStr (py "hold")) ]) ].
Proof. vm_compute. reflexivity. Qed.

(** A token inside a longer text is no match. *)
Example notify_no_gesture :
  _cb Str.ascii_lower (py "c1") (Str.bytes_of "double tap")
  = [ (py "raw_notify", VDict [ (py "uuid", VStr (py "c1"));
                                (py "data_hex", VStr (py "646f75626c6520746170")) ]) ].
Proof. vm_compute. reflexivity. Qed.

End RingControllerFacts.

(** ** The mapping table *)

Module MainWindowFacts.

Import MainWindow.

Implicit Types (m : Mappings) (topic trig action : str).

Lemma elem_trigger_set m action topic :
  topic ∈ trigger_set m action
  <-> exists triggers, Dict.get m action = Some triggers /\ topic ∈ triggers.
Proof.
  unfold trigger_set. rewrite elem_of_list_to_set.
  destruct (Dict.get m action) as [ts|]; cbn.
  - split; [eauto|]. intros (ts' & [= <-] & H). exact H.
  - split; [intros H; inversion H|]. intros (ts' & [=] & _).
Qed.

Lemma elem_filter {A} (f : A -> bool) (l : list A) (x : A) :
  x ∈ List.filter f l <-> f x = true /\ x ∈ l.
Proof. rewrite !list_elem_of_In, filter_In. tauto. Qed.

Lemma elem_triggered m topic action :
  action ∈ triggered m topic
  <-> exists triggers, (action, triggers) ∈ m /\ topic ∈ triggers.
Proof.
  unfold triggered. rewrite list_elem_of_fmap. split.
  - intros ([a ts] & -> & Hin). apply elem_filter in Hin as [Hp Hin].
    exists ts. split; [exact Hin|]. apply bool_decide_eq_true in Hp. exact Hp.
  - intros (ts & Hin & Ht). exists (action, ts). split; [reflexivity|].
    apply elem_filter. split; [|exact Hin]. apply bool_decide_eq_true. exact Ht.
Qed.

Lemma triggered_NoDup m topic : NoDup (Dict.keys m) -> NoDup (triggered m topic).
Proof.
  unfold triggered, Dict.keys. induction m as [|[a ts] m IH]; cbn; intros Hnd.
  - constructor.
  - apply NoDup_cons in Hnd as [Hnot Hnd].
    destruct (bool_decide (topic ∈ ts)); cbn; [|auto].
    apply NoDup_cons. split; [|auto]. intros Hin. apply Hnot.
    apply list_elem_of_fmap in Hin as ([a' ts'] & -> & Hin).
    apply elem_filter in Hin as [_ Hin].
    change (fst (a', ts')) with ((a', ts').1). apply list_elem_of_fmap_2. exact Hin.
Qed.

(** The lookup of [_handle] against the trigger sets. *)
Lemma triggered_trigger_set m topic action :
  NoDup (Dict.keys m) ->
  (action ∈ triggered m topic <-> topic ∈ trigger_set m action).
Proof.
  intros Hnd. rewrite elem_triggered, elem_trigger_set.
  split; intros (ts & H & Ht); exists ts; split; auto.
  - apply DictFacts.elem_get; assumption.
  - apply DictFacts.get_Some_elem. exact H.
Qed.

Lemma remove_row_keys trig action m :
  NoDup (Dict.keys m) -> NoDup (Dict.keys (remove_row trig action m)).
Proof.
  intros Hnd. unfold remove_row. destruct (Dict.get m action); [|exact Hnd].
  destruct (bool_decide _); [|exact Hnd]. apply DictFacts.keys_set_NoDup, Hnd.
Qed.

Lemma add_trigger_keys trig action m :
  NoDup (Dict.keys m) -> NoDup (Dict.keys (add_trigger trig action m)).
Proof.
  intros Hnd. unfold add_trigger. destruct (bool_decide _).
  - apply DictFacts.keys_setdefault_NoDup, Hnd.
  - apply DictFacts.keys_set_NoDup, DictFacts.keys_setdefault_NoDup, Hnd.
Qed.


(** Removing a trigger that the action does not have leaves the table as it
    is. *)
Lemma remove_row_absent trig action m :
  trig ∉ trigger_set m action -> remove_row trig action m = m.
Proof.
  intros Hout. unfold remove_row. destruct (Dict.get m action) as [ts|] eqn:Hget; [|reflexivity].
  rewrite bool_decide_eq_false_2; [reflexivity|].
  intros Hin. apply Hout, elem_trigger_set. eauto.
Qed.

(** [_handle] dispatches the actions of the lookup, in its order, and stops
    at the first dispatch that raises. *)
Lemma handle_dispatches {App : Type}
    (body : ActionRouter.ActionHandler -> ActionRouter.payload_dict -> App
            -> result unit * App)
    m topic (payload : value) (r : ActionRouter.Router App) :
  _handle body m topic payload r
  = Py.for_each (triggered m topic) (fun action =>
      ActionRouter.dispatch body action
        (Some [ (py "action", VStr action); (py "topic", VStr topic);
                (py "payload", payload) ])) r.
Proof.
  revert r. unfold _handle, triggered.
  induction m as [|[action triggers] m IH]; intros r; [reflexivity|].
  cbn [Py.for_each List.filter snd]. destruct (bool_decide (topic ∈ triggers)).
  - cbn [List.map Py.for_each fst]. unfold Py.bind.
    destruct (ActionRouter.dispatch body action _ r) as [[[]|e] r']; [apply IH|reflexivity].
  - unfold Py.bind at 1, Py.ret at 1. apply IH.
Qed.

Lemma elem_trigger_set_default m action topic :
  topic ∈ trigger_set m action <-> topic ∈ default [] (Dict.get m action).
Proof. unfold trigger_set. apply elem_of_list_to_set. Qed.

Lemma triggers_setdefault m action action' :
  default [] (Dict.get (Dict.setdefault m action []) action')
  = default [] (Dict.get m action').
Proof.
  rewrite DictFacts.get_setdefault. destruct (Dict.get m action'); [reflexivity|].
  case_decide; reflexivity.
Qed.

(** What an addition does to the trigger sets of a table: the trigger joins
    the set of the action. *)
Lemma add_trigger_trigger_set trig action0 m action topic :
  topic ∈ trigger_set (add_trigger trig action0 m) action
  <-> topic ∈ trigger_set m action \/ (action = action0 /\ topic = trig).
Proof.
  rewrite !elem_trigger_set_default. unfold add_trigger.
  rewrite (triggers_setdefault m action0 action0).
  case_bool_decide as Hb.
  - rewrite triggers_setdefault.
    split; [auto|]. intros [?|(-> & ->)]; assumption.
  - rewrite DictFacts.get_set.
    destruct (decide (action0 = action)) as [<-|Hne]; cbn [default from_option]; unfold id.
    + rewrite elem_of_app, list_elem_of_singleton.
      split.
      * intros [?|Hr]; [left; assumption|]. right. split; [reflexivity|exact Hr].
      * intros [?|(_ & Hr)]; [left; assumption|right; exact Hr].
    + rewrite triggers_setdefault. split; [auto|].
      intros [?|(-> & _)]; [assumption|destruct (Hne eq_refl)].
Qed.

Lemma list_remove_NoDup (x : str) (l : list str) : NoDup l -> NoDup (list_remove x l).
Proof.
  induction l as [|y l IH]; cbn; intros Hnd; [constructor|].
  apply NoDup_cons in Hnd as [Hnot Hnd]. case_decide; [exact Hnd|].
  apply NoDup_cons. split; [|auto]. intros Hin. apply Hnot. clear -Hin.
  induction l as [|z l IH]; cbn in Hin; [inversion Hin|].
  case_decide; [right; exact Hin|].
  apply elem_of_cons in Hin as [->|Hin]; [left|right; auto].
Qed.

Lemma elem_list_remove (x y : str) (l : list str) :
  NoDup l -> (y ∈ list_remove x l <-> y ∈ l /\ y <> x).
Proof.
  induction l as [|z l IH]; cbn; intros Hnd.
  - split; [intros H; inversion H|intros [H _]; inversion H].
  - apply NoDup_cons in Hnd as [Hnot Hnd]. rewrite elem_of_cons. case_decide.
    + subst z. split.
      * intros Hin. split; [auto|]. intros ->. exact (Hnot Hin).
      * intros [[->|Hin] Hne]; [destruct (Hne eq_refl)|exact Hin].
    + rewrite elem_of_cons, (IH Hnd). split.
      * intros [->|[Hin Hne]]; split; auto.
      * intros [[->|Hin] Hne]; auto.
Qed.

(** What the removal of a row does to the trigger sets of a table without
    duplicates: the trigger leaves the set of the action. *)
Lemma remove_row_trigger_set trig action m action' topic :
  duplicate_free m ->
  topic ∈ trigger_set (remove_row trig action m) action'
  <-> topic ∈ trigger_set m action' /\ ~ (action' = action /\ topic = trig).
Proof.
  intros Hdf. rewrite !elem_trigger_set_default. unfold remove_row.
  destruct (Dict.get m action) as [ts|] eqn:Hget.
  - destruct (bool_decide (trig ∈ ts)) eqn:Hb.
    + rewrite DictFacts.get_set. destruct (decide (action = action')) as [<-|Hne].
      * rewrite Hget. cbn [default from_option]. unfold id.
        rewrite (elem_list_remove _ _ _ (Hdf _ _ Hget)).
        split; intros [Hin Hne]; split; auto. intros [_ ->]. destruct (Hne eq_refl).
      * split; [intros Hin; split; [exact Hin|]|intros [Hin _]; exact Hin].
        intros [-> _]. destruct (Hne eq_refl).
    + apply bool_decide_eq_false in Hb.
      split; [intros Hin; split; [exact Hin|]|intros [Hin _]; exact Hin].
      intros [-> ->]. rewrite Hget in Hin. exact (Hb Hin).
  - split; [intros Hin; split; [exact Hin|]|intros [Hin _]; exact Hin].
    intros [-> ->]. rewrite Hget in Hin. inversion Hin.
Qed.

Lemma remove_row_duplicate_free trig action m :
  duplicate_free m -> duplicate_free (remove_row trig action m).
Proof.
  intros Hdf a ts. unfold remove_row.
  destruct (Dict.get m action) as [ts0|] eqn:Hget; [|apply Hdf].
  destruct (bool_decide (trig ∈ ts0)); [|apply Hdf].
  rewrite DictFacts.get_set. case_decide; [|apply Hdf].
  intros [= <-]. apply list_remove_NoDup, (Hdf _ _ Hget).
Qed.

Lemma add_trigger_duplicate_free trig action m :
  duplicate_free m -> duplicate_free (add_trigger trig action m).
Proof.
  intros Hdf. unfold add_trigger.
  assert (Hdf1 : duplicate_free (Dict.setdefault m action [])).
  { intros a' ts. rewrite DictFacts.get_setdefault.
    destruct (Dict.get m a') eqn:Hg; [intros [= <-]; exact (Hdf _ _ Hg)|].
    case_decide; [intros [= <-]; constructor|discriminate]. }
  destruct (bool_decide _) eqn:Hb; [exact Hdf1|].
  apply bool_decide_eq_false in Hb.
  intros a' ts. rewrite DictFacts.get_set. case_decide; [|apply Hdf1].
  intros [= <-]. apply NoDup_app. split; [|split].
  - destruct (Dict.get (Dict.setdefault m action []) action) eqn:Hg;
      [exact (Hdf1 _ _ Hg)|constructor].
  - intros x Hx Hx'. apply list_elem_of_singleton in Hx'. subst x. exact (Hb Hx).
  - repeat constructor. intros H'; inversion H'.
Qed.

Section TabFacts.
Variable mkdir : result unit.

Lemma save_raises (tab : Tab) :
  save mkdir tab = (Raise (Config.save_config_error mkdir), tab).
Proof. unfold save. rewrite ConfigFacts.save_config_raises. reflexivity. Qed.

(** What [_add_mapping] does, case by case: a blank trigger is refused; on
    the table [None] the call of [setdefault] raises; on a table that is a
    [dict] the table is updated and [save_config] raises, before the widget
    is reloaded. *)
Lemma add_mapping_outcome (trigger_text action_text : str) (tab : Tab) :
  _add_mapping mkdir trigger_text action_text tab
  = match Str.strip trigger_text, cfg_mappings tab with
    | [], _ => (Return tt, tab)
    | _ :: _, None =>
        (Raise (AttributeError (py "'NoneType' object has no attribute 'setdefault'")), tab)
    | _ :: _, Some m =>
        (Raise (Config.save_config_error mkdir),
         mkTab (Some (add_trigger (Str.strip trigger_text) (Str.strip action_text) m))
               (map_table tab))
    end.
Proof.
  unfold _add_mapping. destruct (Str.strip trigger_text) as [|c trig]; [reflexivity|].
  unfold Py.bind, Py.gets. destruct (cfg_mappings tab) as [m|]; [|reflexivity].
  unfold Py.modify. rewrite save_raises. reflexivity.
Qed.

Lemma remove_selected_eq (r : nat) (tab : Tab) :
  remove_selected r tab
  = match map_table tab !! r with
    | Some (trig, action) =>
        (Return tt,
         match cfg_mappings tab with
         | Some m => mkTab (Some (remove_row trig action m)) (map_table tab)
         | None => tab
         end)
    | None => (Raise (AttributeError (py "'NoneType' object has no attribute 'text'")), tab)
    end.
Proof.
  unfold remove_selected, Py.bind, Py.gets.
  destruct (map_table tab !! r) as [[trig action]|]; reflexivity.
Qed.

(** The loop of [_remove_mapping] never touches the widget, and it keeps the
    invariant of the table. *)
Lemma remove_loop_keeps (rows : list nat) (tab : Tab) :
  map_table (snd (Py.for_each rows remove_selected tab)) = map_table tab
  /\ (tab_duplicate_free tab ->
      tab_duplicate_free (snd (Py.for_each rows remove_selected tab))).
Proof.
  revert tab. induction rows as [|r rows IH]; intros tab; [split; auto|].
  cbn [Py.for_each]. unfold Py.bind. rewrite remove_selected_eq.
  destruct (map_table tab !! r) as [[trig action]|]; [|split; auto].
  destruct (cfg_mappings tab) as [m|] eqn:Hm.
  - destruct (IH (mkTab (Some (remove_row trig action m)) (map_table tab))) as [Hw Hdf].
    split; [exact Hw|]. intros Htab. apply Hdf. intros m' [= <-].
    apply remove_row_duplicate_free, (Htab m Hm).
  - apply IH.
Qed.


(** What [_remove_mapping] does once the loop is over: [save_config] raises
    and the widget is not reloaded. *)
Lemma remove_mapping_outcome (selected : list nat) (tab : Tab) :
  let rows := BLEManager.sort_desc Z.of_nat (remove_dups selected) in
  _remove_mapping mkdir selected tab
  = match rows with
    | [] => (Return tt, tab)
    | _ :: _ =>
        (match fst (Py.for_each rows remove_selected tab) with
         | Return _ => Raise (Config.save_config_error mkdir)
         | Raise e => Raise e
         end,
         snd (Py.for_each rows remove_selected tab))
    end.
Proof.
  cbn zeta. unfold _remove_mapping.
  destruct (BLEManager.sort_desc Z.of_nat (remove_dups selected)) as [|r rows]; [reflexivity|].
  unfold Py.bind. destruct (Py.for_each (r :: rows) remove_selected tab) as [[[]|e] tab'];
    [|reflexivity].
  rewrite save_raises. reflexivity.
Qed.


Lemma step_duplicate_free (op : Op) (tab : Tab) :
  tab_duplicate_free tab -> tab_duplicate_free (snd (step mkdir op tab)).
Proof.
  intros Htab. destruct op as [t a|selected]; cbn [step].
  - rewrite add_mapping_outcome. destruct (Str.strip t) as [|c trig]; [exact Htab|].
    destruct (cfg_mappings tab) as [m|] eqn:Hm; [|exact Htab].
    intros m' [= <-]. apply add_trigger_duplicate_free, (Htab m Hm).
  - rewrite remove_mapping_outcome.
    destruct (BLEManager.sort_desc Z.of_nat (remove_dups selected)) as [|r rows];
      [exact Htab|].
    apply remove_loop_keeps, Htab.
Qed.

(** X26. The mapping operations keep the invariant of the data model: on a
    table in which no trigger list holds a topic twice, no sequence of
    additions and removals produces a list that does. *)
Lemma run_duplicate_free (ops : list Op) (tab : Tab) :
  tab_duplicate_free tab -> tab_duplicate_free (run mkdir ops tab).
Proof.
  revert tab. induction ops as [|op ops IH]; intros tab Hdf; [exact Hdf|].
  cbn [run]. apply IH, step_duplicate_free, Hdf.
Qed.


End TabFacts.

Import Scenario Scenario2.

Example default_table_of_config : mappings_of Config.default_mappings = Some default_table.
Proof. vm_compute. reflexivity. Qed.


(** On a first run nothing can be added: the lookup for [button_long] finds
    no action before the addition and none after it. *)
Example add_on_first_run :
  let tab := run (Return tt) [AddMapping (py "button_long") (py "toggle_listen")]
                 first_run_tab in
  cfg_mappings tab = None
  /\ triggered (mappings_or_empty tab) (py "button_long") = [].
Proof. vm_compute. split; reflexivity. Qed.

(** On the table of [__post_init__]: adding [button_single] to
    [toggle_listen], which has it, raises [TypeError] and changes nothing;
    removing the first row raises too, after the trigger was taken out of
    the table, and the widget still shows the row. *)
Example add_present_trigger :
  _add_mapping (Return tt) (py "button_single") (py "toggle_listen") default_tab
  = (Raise (TypeError (py "asdict() should be called on dataclass instances")), default_tab).
Proof. vm_compute. reflexivity. Qed.

Example remove_first_row :
  let '(out, tab) := _remove_mapping (Return tt) [0%nat] default_tab in
  out = Raise (TypeError (py "asdict() should be called on dataclass instances"))
  /\ cfg_mappings tab
     = Some [ (py "toggle_listen", []);
              (py "send_last_transcript", [py "button_double"]);
              (py "cycle_llm", [py "button_long"]) ]
  /\ map_table tab !! 0%nat = Some (py "button_single", py "toggle_listen").
Proof. vm_compute. repeat split; reflexivity. Qed.

End MainWindowFacts.

(** ** More on the event bus *)

Module EventBusMore.

Import EventBus EventBusFacts.

Section Facts.
Context {App : Type}.
Variable body : Handler -> value -> World App -> result unit * World App.

(** X1. [subscribe] keeps no set: a handler subscribed twice to a topic is
    called twice by every publication on it, after the handlers that were
    there before. *)
Theorem subscribe_twice_invokes_twice
    (topic : str) (payload : value) (h : Handler) (r : Run App) :
  exists r2 r',
    Py.for_each [h; h] (subscribe topic) r = (Return tt, r2)
    /\ publish body topic payload r2 = (Return tt, r')
    /\ invoked r2 r' = subs_at (world r) topic ++ [h; h].
Proof.
  destruct (subscribe_all topic [h; h] r) as (r2 & Hsub & _ & Hs).
  destruct (publish_calls body topic payload r2) as (r' & cs & Hpub & Hc & Hw).
  exists r2, r'. split; [exact Hsub|]. split; [exact Hpub|].
  rewrite (invoked_app r2 r' cs Hc), <- (List.map_map who fst), Hw, List.map_map, Hs.
  apply List.map_id.
Qed.

(** X2. Topics are separate: after a handler subscribed to one topic, a
    publication on another topic calls exactly the handlers that this other
    topic had, and on a topic without handlers it calls nothing and changes
    nothing. *)
Theorem publish_only_own_topic
    (topic topic' : str) (payload : value) (h : Handler) (r : Run App)
    (Hne : topic <> topic') :
  (exists r',
      publish body topic' payload (snd (subscribe topic h r)) = (Return tt, r')
      /\ invoked (snd (subscribe topic h r)) r' = subs_at (world r) topic')
  /\ (subs_at (world r) topic' = [] -> publish body topic' payload r = (Return tt, r)).
Proof.
  split.
  - destruct (publish_calls body topic' payload (snd (subscribe topic h r)))
      as (r' & cs & Hpub & Hc & Hw).
    exists r'. split; [exact Hpub|].
    rewrite (invoked_app _ r' cs Hc), <- (List.map_map who fst), Hw, List.map_map.
    cbn. rewrite (subs_at_subscribe_ne topic topic' h (world r) Hne). apply List.map_id.
  - unfold subs_at, publish, Py.bind, Py.gets.
    destruct (_subs (world r) !! topic') as [hs|]; cbn; [|reflexivity].
    intros ->. reflexivity.
Qed.

End Facts.

End EventBusMore.

(** ** More on the action router *)

Module ActionRouterMore.

Import ActionRouter ActionRouterFacts.

Section Facts.
Context {App : Type}.
Variable body : ActionHandler -> payload_dict -> App -> result unit * App.

(** X3. The router catches nothing: when the handler of an action raises,
    [dispatch] raises the same exception, after the call was made and with
    what the handler did to the application state before it raised. *)
Theorem dispatch_propagates_failure
    (r : Router App) (action : str) (h : ActionHandler)
    (payload : option payload_dict) (e : Exception) (a' : App)
    (Hreg : _handlers r !! action = Some h)
    (Hraise : body h (payload_or_default action payload) (app r) = (Raise e, a')) :
  dispatch body action payload r
  = (Raise e, mkRouter (_handlers r) a'
                (calls r ++ [(h, payload_or_default action payload)])).
Proof.
  rewrite (dispatch_registered body r action h payload Hreg).
  unfold await_handler. rewrite Hraise. reflexivity.
Qed.

(** X4. Registering a handler for one action does not change how another
    action is dispatched: the same outcome, the same call, the same
    application state. *)
Theorem register_leaves_other_actions
    (r : Router App) (action action' : str) (h : ActionHandler)
    (payload : option payload_dict) (Hne : action <> action') :
  let r1 := snd (register_action_handler action h r) in
  fst (dispatch body action' payload r1) = fst (dispatch body action' payload r)
  /\ app (snd (dispatch body action' payload r1)) = app (snd (dispatch body action' payload r))
  /\ calls (snd (dispatch body action' payload r1))
     = calls (snd (dispatch body action' payload r))
  /\ _handlers (snd (dispatch body action' payload r1)) = <[action := h]> (_handlers r).
Proof.
  cbn. unfold dispatch, Py.bind, Py.gets. cbn.
  rewrite lookup_insert_ne by exact Hne.
  destruct (_handlers r !! action') as [h'|]; cbn; [|auto].
  unfold await_handler. cbn.
  destruct (body h' (payload_or_default action' payload) (app r)); auto.
Qed.

End Facts.

End ActionRouterMore.

(** ** The bridge from the bus to the router *)

Module BridgeFacts.

Import EventBus ActionRouter MainWindow Bridge.

Section Facts.
Context {A : Type}.
Variable action_body : ActionHandler -> payload_dict -> A -> result unit * A.
Variable repr : value -> str.

Lemma expected_calls_cons (handlers : gmap str ActionHandler) (action : str)
    (actions : list str) (topic : str) (payload : value) :
  expected_calls handlers (action :: actions) topic payload
  = match handlers !! action with
    | Some h => (h, dispatch_payload action topic payload)
                :: expected_calls handlers actions topic payload
    | None => expected_calls handlers actions topic payload
    end.
Proof. unfold expected_calls. cbn. destruct (handlers !! action); reflexivity. Qed.

Lemma dispatch_all_return (actions : list str) (topic : str) (payload : value)
    (r : Router A)
    (Hret : forall h arg a, fst (action_body h arg a) = Return tt) :
  exists a',
    Py.for_each actions (fun action =>
      dispatch action_body action (Some (dispatch_payload action topic payload))) r
    = (Return tt,
       mkRouter (_handlers r) a'
         (ActionRouter.calls r ++ expected_calls (_handlers r) actions topic payload)).
Proof.
  revert r. induction actions as [|action actions IH]; intros r.
  - exists (ActionRouter.app r). cbn. rewrite app_nil_r. destruct r; reflexivity.
  - cbn [Py.for_each]. unfold Py.bind at 1, dispatch at 1, Py.bind, Py.gets.
    rewrite expected_calls_cons.
    destruct (_handlers r !! action) as [h|] eqn:Hh.
    + unfold ActionRouter.await_handler. cbn [payload_or_default dispatch_payload].
      fold (dispatch_payload action topic payload).
      pose proof (Hret h (dispatch_payload action topic payload) (ActionRouter.app r)) as Hh'.
      destruct (action_body h (dispatch_payload action topic payload) (ActionRouter.app r))
        as [out a1]. cbn in Hh'. subst out.
      destruct (IH (mkRouter (_handlers r) a1
                      (ActionRouter.calls r ++ [(h, dispatch_payload action topic payload)])))
        as [a' Ha'].
      exists a'. rewrite Ha'. cbn. rewrite <- app_assoc. reflexivity.
    + unfold Py.ret. apply IH.
Qed.

(** X5. When no action handler raises, [_handle] returns after calling, for
    each action whose triggers hold the topic and that has a handler, that
    handler once with [{action, topic, payload}], in the order of the
    table; an action without handler is passed over, and the registrations
    stay as they were. *)
Theorem handle_calls_every_match
    (m : Mappings) (topic : str) (payload : value) (r : Router A)
    (Hret : forall h arg a, fst (action_body h arg a) = Return tt) :
  exists a',
    _handle action_body m topic payload r
    = (Return tt,
       mkRouter (_handlers r) a'
         (ActionRouter.calls r
          ++ expected_calls (_handlers r) (triggered m topic) topic payload)).
Proof.
  destruct (dispatch_all_return (triggered m topic) topic payload r Hret) as [a' Ha'].
  exists a'. rewrite MainWindowFacts.handle_dispatches. exact Ha'.
Qed.

(** X6. [_handle] stops at the first handler that raises: when the first
    matching action has a handler that raises, [_handle] raises the same
    exception and the actions that follow in the table are not dispatched. *)
Theorem handle_stops_at_failure
    (m : Mappings) (topic : str) (payload : value) (r : Router A)
    (action : str) (later : list str) (h : ActionHandler) (e : Exception) (a' : A)
    (Hfirst : triggered m topic = action :: later)
    (Hreg : _handlers r !! action = Some h)
    (Hraise : action_body h (dispatch_payload action topic payload) (ActionRouter.app r)
              = (Raise e, a')) :
  _handle action_body m topic payload r
  = (Raise e,
     mkRouter (_handlers r) a'
       (ActionRouter.calls r ++ [(h, dispatch_payload action topic payload)])).
Proof.
  rewrite MainWindowFacts.handle_dispatches, Hfirst. cbn [Py.for_each].
  unfold Py.bind at 1.
  rewrite (ActionRouterFacts.dispatch_registered action_body r action h _ Hreg).
  unfold ActionRouter.await_handler. cbn [payload_or_default dispatch_payload].
  fold (dispatch_payload action topic payload). rewrite Hraise. reflexivity.
Qed.

Lemma wired_subs (win win' : Window A) :
  _subs (world (wired win))
  = _subs (world (wired win')).
Proof. reflexivity. Qed.

Lemma wired_gesture_subscribers (win : Window A) (i : nat) (topic : str) :
  gesture_topics !! i = Some topic ->
  @eq (option (list Handler)) (_subs (world (wired win)) !! topic) (Some [i]).
Proof.
  destruct i as [|[|[|i]]]; cbn; intros [= <-]; vm_compute; reflexivity.
Qed.

Lemma wired_raw_subscribers (win : Window A) :
  @eq (option (list Handler)) (_subs (world (wired win)) !! py "raw_notify")
      (Some [on_raw_notify]).
Proof. vm_compute. reflexivity. Qed.

(** A publication on a bridged topic, on any bus that has the subscriptions
    of [_wire_bus]. *)
Lemma publish_gesture (r : Run (Window A)) (win0 : Window A) (i : nat)
    (topic : str) (payload : value) :
  _subs (world r) = _subs (world (wired win0)) ->
  gesture_topics !! i = Some topic ->
  publish (window_body action_body repr) topic payload r
  = (Return tt,
     mkRun (mkWorld (_subs (world r))
                    (snd (_h action_body topic payload (EventBus.app (world r)))))
           (EventBus.calls r
            ++ [(i, payload, fst (_h action_body topic payload (EventBus.app (world r))))])).
Proof.
  intros Hsubs Hi. unfold publish, Py.bind, Py.gets.
  pose proof (wired_gesture_subscribers win0 i topic Hi) as Hl.
  rewrite <- Hsubs in Hl. rewrite Hl. clear Hl Hsubs.
  cbn [Py.for_each]. unfold Py.bind, Py.try_except, EventBus.await_handler, window_body.
  match goal with
  | |- context [@lookup ?K ?V ?M ?inst i gesture_topics] =>
      replace (@lookup K V M inst i gesture_topics) with (Some topic)
        by (symmetry; exact Hi)
  end.
  destruct (_h action_body topic payload (EventBus.app (world r))) as [out win'].
  cbn [fst snd]. destruct out; reflexivity.
Qed.

Lemma publish_raw (r : Run (Window A)) (win0 : Window A) (payload : value) :
  _subs (world r) = _subs (world (wired win0)) ->
  publish (window_body action_body repr) (py "raw_notify") payload r
  = (Return tt,
     mkRun (mkWorld (_subs (world r)) (_on_raw_notify repr payload (EventBus.app (world r))))
           (EventBus.calls r ++ [(on_raw_notify, payload, Return tt)])).
Proof.
  intros Hsubs. unfold publish, Py.bind, Py.gets.
  pose proof (wired_raw_subscribers win0) as Hl.
  rewrite <- Hsubs in Hl. rewrite Hl. reflexivity.
Qed.

(** X7. On the bus that [_wire_bus] set up, a publication on a gesture topic
    runs [_handle] for that topic once and returns normally whatever
    [_handle] does: an exception of an action handler ends at the bus.  The
    subscriptions, the mapping table and the notify box stay as they were. *)
Theorem wired_publish_contains_failure
    (win : Window A) (i : nat) (topic : str) (payload : value)
    (Htopic : gesture_topics !! i = Some topic) :
  let outcome := _handle action_body (mappings win) topic payload (router win) in
  let bus := wired win in
  publish (window_body action_body repr) topic payload bus
  = (Return tt,
     mkRun (mkWorld (_subs (world bus))
                    (mkWindow (snd outcome) (mappings win) (notify_box win)))
           [(i, payload, fst outcome)]).
Proof.
  cbn zeta.
  rewrite (publish_gesture (wired win) win i topic payload eq_refl Htopic).
  unfold _h. change (EventBus.app (world (wired win))) with win.
  destruct (_handle action_body (mappings win) topic payload (router win)); reflexivity.
Qed.

(** X8. A notification of the ring on the wired bus: the raw payload is
    written to the notify box once, then, when the callback recognised a
    gesture, [_handle] runs once for its topic; nothing is raised, and the
    subscriptions and the mapping table stay as they were. *)
Theorem notification_reaches_router
    (lower : str -> str) (win : Window A) (char_uuid : str) (data : list Byte.byte) :
  let events := RingController._cb lower char_uuid data in
  let noted := _on_raw_notify repr (VDict [ (py "uuid", VStr char_uuid);
                                            (py "data_hex", VStr (Str.hex data)) ]) win in
  let bus := wired win in
  exists r',
    notify action_body repr lower char_uuid data bus = (Return tt, r')
    /\ _subs (world r') = _subs (world bus)
    /\ EventBus.app (world r')
       = match tail events with
         | [] => noted
         | (topic, payload) :: _ => snd (_h action_body topic payload noted)
         end.
Proof.
  cbn zeta. unfold notify, RingController._cb. cbn [Py.for_each fst snd head tail fmap
    option_fmap option_map default from_option id].
  unfold Py.bind at 1.
  rewrite (publish_raw (wired win) win _ eq_refl).
  set (r1 := mkRun _ _).
  assert (Hr1 : _subs (world r1) = _subs (world (wired win))) by reflexivity.
  repeat case_bool_decide.
  - cbn [Py.for_each fst snd]. unfold Py.bind.
    rewrite (publish_gesture r1 win 0%nat _ _ Hr1 eq_refl). eexists. split; [reflexivity|].
    split; reflexivity.
  - cbn [Py.for_each fst snd]. unfold Py.bind.
    rewrite (publish_gesture r1 win 1%nat _ _ Hr1 eq_refl). eexists. split; [reflexivity|].
    split; reflexivity.
  - cbn [Py.for_each fst snd]. unfold Py.bind.
    rewrite (publish_gesture r1 win 2%nat _ _ Hr1 eq_refl). eexists. split; [reflexivity|].
    split; reflexivity.
  - eexists. split; [reflexivity|]. split; reflexivity.
Qed.

End Facts.

End BridgeFacts.

(** ** More on the BLE manager *)

Module BLEManagerMore.

Import BLEManager BLEManagerFacts.

Section Facts.
Context {Tr : Type} (T : Transport Tr).

(** X12. [disconnect] always ends with no client held, also when the call
    on the library raises (the exception still reaches the caller); with no
    client held it calls nothing and changes nothing, so a second
    [disconnect] is a no-op. *)
Theorem disconnect_always_clears (s : State Tr) :
  _client (snd (disconnect T s)) = None
  /\ disconnect T (snd (disconnect T s)) = (Return tt, snd (disconnect T s))
  /\ match _client s with
     | None => disconnect T s = (Return tt, s)
     | Some c =>
         fst (disconnect T s) = fst (client_disconnect T c (tr s))
         /\ trace (snd (disconnect T s)) = trace s ++ [Disconnect c]
     end.
Proof.
  assert (Hnone : forall s0 : State Tr, _client s0 = None -> disconnect T s0 = (Return tt, s0)).
  { intros s0 H0. unfold disconnect, Py.bind, Py.gets. rewrite H0. reflexivity. }
  assert (Hclear : _client (snd (disconnect T s)) = None).
  { unfold disconnect, Py.bind, Py.gets. destruct (_client s) as [c|] eqn:Hc; cbn.
    - unfold Py.try_finally, call. destruct (client_disconnect T c (tr s)); reflexivity.
    - exact Hc. }
  split; [exact Hclear|]. split; [apply Hnone, Hclear|].
  destruct (_client s) as [c|] eqn:Hc; [|apply Hnone, Hc].
  unfold disconnect, Py.bind, Py.gets. rewrite Hc.
  unfold Py.try_finally, call, set_client, Py.modify.
  destruct (client_disconnect T c (tr s)) as [out w]. cbn. auto.
Qed.

Local Ltac run_connect :=
  unfold connect, second_attempt, Py.try_except, find_device, do_connect, Py.bind, call,
    Py.ret, Py.raise, Py.gets, set_client, Py.modify; cbn;
  repeat match goal with
         | |- context [find_device_by_address T ?a ?t ?w] =>
             destruct (find_device_by_address T a t w) as [[?|?] ?]; cbn
         | |- context [client_connect T ?c ?w] =>
             destruct (client_connect T c w) as [[[]|?] ?]; cbn
         | |- context [is_connected T ?c ?w] =>
             destruct (is_connected T c w) eqn:?; cbn
         end.

(** X13. The manager holds a client exactly when [connect] returned it, and
    then the library reported it connected; after a [connect] that raises,
    no client is held, even if one was held before the call. *)
Theorem connect_outcome_matches_state (address : str) (timeout : Q) (s : State Tr) :
  match fst (connect T address timeout s) with
  | Return c =>
      _client (snd (connect T address timeout s)) = Some c
      /\ is_connected T c (tr (snd (connect T address timeout s))) = true
  | Raise _ => _client (snd (connect T address timeout s)) = None
  end.
Proof.
  pose proof (RingControllerFacts.disconnect_no_client T s) as Hd.
  unfold connect at 1 2 3 4, Py.bind.
  destruct (disconnect T s) as [[[]|e] s0]; cbn in Hd |- *; [|exact Hd].
  run_connect; auto.
Qed.

(** X14. [connect] first gives up the client that is held: the call on the
    library to disconnect it comes before any other, and when that call
    raises, [connect] raises the same exception without resolving or
    connecting anything. *)
Theorem connect_disconnects_first
    (address : str) (timeout : Q) (s : State Tr) (c0 : BleakClient)
    (Hheld : _client s = Some c0) :
  (exists rest,
      trace (snd (connect T address timeout s)) = trace s ++ Disconnect c0 :: rest)
  /\ (forall e w,
        client_disconnect T c0 (tr s) = (Raise e, w) ->
        connect T address timeout s
        = (Raise e, mkState None w (trace s ++ [Disconnect c0]))).
Proof.
  split.
  - unfold connect, Py.bind, disconnect at 1, Py.bind, Py.gets. rewrite Hheld.
    unfold Py.try_finally, call at 1, set_client, Py.modify.
    destruct (client_disconnect T c0 (tr s)) as [[[]|e] w]; cbn;
      [|exists []; reflexivity].
    run_connect; rewrite <- ?app_assoc; cbn; eexists; reflexivity.
  - intros e w He. unfold connect, Py.bind, disconnect, Py.bind, Py.gets. rewrite Hheld.
    unfold Py.try_finally, call, set_client, Py.modify. rewrite He. reflexivity.
Qed.

(** X15. A first attempt that returns is the only one: no pause, no second
    resolution.  [connect] then returns the client and keeps it when the
    library reports it connected, and otherwise raises the error "Failed to
    connect to <address>" and keeps nothing. *)
Theorem connect_first_attempt_is_final
    (address : str) (timeout : Q) (s s0 s1 s2 : State Tr) (device : option BLEDevice)
    (Hdisc : disconnect T s = (Return tt, s0))
    (Hfind : Py.try_except (find_device T address timeout) (fun _ => Py.ret None) s0
             = (Return device, s1))
    (Hfirst : do_connect T (mkBleakClient (device_or device address) timeout) s1
              = (Return tt, s2)) :
  let client := mkBleakClient (device_or device address) timeout in
  connect T address timeout s
  = (if is_connected T client (tr s2)
     then (Return client, mkState (Some client) (tr s2) (trace s2))
     else (Raise (failed_to_connect address), s2))
  /\ trace s2 = trace s0 ++ [FindDevice address timeout; Connect client]
  /\ _client s2 = None.
Proof.
  cbn zeta. split; [|].
  - unfold connect, Py.bind. rewrite Hdisc, Hfind.
    unfold Py.try_except at 1. unfold Py.bind. rewrite Hfirst.
    unfold Py.ret, Py.gets. destruct (is_connected T _ (tr s2)); reflexivity.
  - pose proof (RingControllerFacts.disconnect_no_client T s) as Hd.
    rewrite Hdisc in Hd. cbn in Hd.
    revert Hfind Hfirst. unfold Py.try_except, find_device, do_connect, call, Py.ret.
    destruct (find_device_by_address T address timeout (tr s0)) as [[d|e] w]; cbn;
      intros [= <- <-]; cbn;
      destruct (client_connect T _ w) as [out w']; cbn; intros [= -> <-]; cbn;
      rewrite <- app_assoc; auto.
Qed.

(** X16. A failure of the first resolution of the address is not an error:
    [connect] goes on with a client made from the address itself. *)
Theorem connect_falls_back_to_address
    (address : str) (timeout : Q) (s s0 : State Tr) (e : Exception) (w w' : Tr)
    (Hdisc : disconnect T s = (Return tt, s0))
    (Hfind : find_device_by_address T address timeout (tr s0) = (Raise e, w))
    (Hconn : client_connect T (mkBleakClient (inr address) timeout) w = (Return tt, w'))
    (Hup : is_connected T (mkBleakClient (inr address) timeout) w' = true) :
  connect T address timeout s
  = (Return (mkBleakClient (inr address) timeout),
     mkState (Some (mkBleakClient (inr address) timeout)) w'
       (trace s0 ++ [FindDevice address timeout;
                     Connect (mkBleakClient (inr address) timeout)])).
Proof.
  unfold connect, Py.bind. rewrite Hdisc.
  unfold Py.try_except, find_device, do_connect, call, Py.bind, Py.ret. rewrite Hfind.
  cbn. rewrite Hconn. cbn. unfold Py.gets. cbn. rewrite Hup. cbn.
  unfold set_client, Py.modify. cbn. rewrite <- app_assoc. reflexivity.
Qed.

(** X17. [scan] leaves the held client alone.  A scanner that started is
    stopped in every case, and an error of the stop reaches the caller in
    place of the result; a scanner that fails to start is not stopped. *)
Theorem scan_keeps_client_and_stops (seconds : Q) (s : State Tr) :
  _client (snd (scan T seconds s)) = _client s
  /\ (forall e w, scanner_start T (tr s) = (Raise e, w) ->
        scan T seconds s = (Raise e, mkState (_client s) w (trace s ++ [ScannerStart])))
  /\ (forall w, scanner_start T (tr s) = (Return tt, w) ->
        trace (snd (scan T seconds s)) = trace s ++ [ScannerStart; Sleep seconds; ScannerStop]
        /\ forall e, fst (scanner_stop T (snd (sleep_scanning T seconds w))) = Raise e ->
                     fst (scan T seconds s) = Raise e).
Proof.
  unfold scan, Py.bind, Py.try_finally, call, Py.ret. cbn.
  destruct (scanner_start T (tr s)) as [[[]|e0] w0]; cbn.
  - destruct (sleep_scanning T seconds w0) as [advs w1] eqn:Hsl. cbn.
    destruct (scanner_stop T w1) as [[[]|e1] w2] eqn:Hst; cbn.
    + split; [reflexivity|]. split; [intros ? ? [=]|]. intros w [= <-].
      rewrite <- !app_assoc. split; [reflexivity|]. intros e He.
      rewrite Hsl in He. cbn in He. rewrite Hst in He. discriminate He.
    + split; [reflexivity|]. split; [intros ? ? [=]|]. intros w [= <-].
      rewrite <- !app_assoc. split; [reflexivity|]. intros e He.
      rewrite Hsl in He. cbn in He. rewrite Hst in He. cbn in He.
      injection He as <-. reflexivity.
  - split; [reflexivity|]. split; [intros e w [= <- <-]; reflexivity|]. intros w [=].
Qed.

End Facts.

Lemma keys_set_order {V : Type} (d : list (str * V)) (k : str) (v : V) :
  Dict.keys (Dict.set d k v)
  = if bool_decide (k ∈ Dict.keys d) then Dict.keys d else Dict.keys d ++ [k].
Proof.
  unfold Dict.keys. induction d as [|[k0 v0] d IH]; cbn; [reflexivity|].
  destruct (decide (k0 = k)) as [->|Hne]; cbn.
  - rewrite bool_decide_eq_true_2 by constructor. reflexivity.
  - rewrite IH. case_bool_decide as Hin.
    + rewrite bool_decide_eq_true_2 by (right; exact Hin). reflexivity.
    + rewrite bool_decide_eq_false_2; [reflexivity|].
      intros Hin'. apply elem_of_cons in Hin' as [->|Hin']; [destruct (Hne eq_refl)|auto].
Qed.

End BLEManagerMore.

(** ** The session of the ring controller *)

Module RingSessionFacts.

Import BLEManager RingSession.

Section Facts.
Context {Tr : Type} (T : Transport Tr) (N : Notifier Tr).

(** Without an address in the profile, [connect] raises "No BLE address
    set." and calls nothing; with one, it is the [connect] of the manager for
    that address with the default timeout of twelve seconds, and it leaves
    the notification handlers as they were. *)
Theorem ring_connect_needs_address (r : Ring Tr) :
  match profile_address r with
  | [] => connect T r = (Raise no_address, r)
  | c :: address =>
      let '(out, b) := BLEManager.connect T (c :: address) 12 (ble r) in
      connect T r
      = (match out with Return _ => Return tt | Raise e => Raise e end,
         mkRing (profile_address r) b (_notify_handlers r))
  end.
Proof.
  unfold connect, Py.bind, Py.gets. destruct (profile_address r) as [|c address] eqn:Ha.
  - reflexivity.
  - unfold on_ble, Py.bind. rewrite Ha.
    destruct (BLEManager.connect T (c :: address) 12 (ble r)) as [[cl|e] b]; reflexivity.
Qed.

(** X19. [subscribe] raises [AttributeError] in every state of the
    controller, with a client held or not: the bound method
    [self.ble.client] is not [None] and has no [start_notify].  The library
    is not called, no handler is kept, and nothing else changes. *)
Theorem subscribe_always_raises (char_uuid : str) (r : Ring Tr) :
  subscribe N char_uuid r
  = (Raise (AttributeError (py "'function' object has no attribute 'start_notify'")), r).
Proof. reflexivity. Qed.

Lemma get_pop {V : Type} (d : list (str * V)) (k : str) :
  NoDup (Dict.keys d) -> Dict.get (pop d k) k = None.
Proof.
  unfold Dict.keys. induction d as [|[k0 v0] d IH]; cbn; intros Hnd; [reflexivity|].
  apply NoDup_cons in Hnd as [Hnot Hnd]. destruct (decide (k0 = k)) as [->|Hne].
  - apply DictFacts.get_None_keys. exact Hnot.
  - cbn. destruct (decide (k0 = k)) as [?|_]; [congruence|]. apply IH, Hnd.
Qed.

Lemma get_pop_ne {V : Type} (d : list (str * V)) (k k' : str) :
  k <> k' -> Dict.get (pop d k) k' = Dict.get d k'.
Proof.
  intros Hne. induction d as [|[k0 v0] d IH]; cbn; [reflexivity|].
  destruct (decide (k0 = k)) as [->|Hk].
  - destruct (decide (k = k')); [congruence|reflexivity].
  - cbn. destruct (decide (k0 = k')); [reflexivity|apply IH].
Qed.

(** X20. [unsubscribe] never raises.  With a client held, the handler of the
    characteristic is dropped whether [stop_notify] returned or raised, and
    the handlers of the other characteristics are kept. *)
Theorem unsubscribe_never_raises (char_uuid : str) (r : Ring Tr) :
  fst (unsubscribe N char_uuid r) = Return tt
  /\ forall c, _client (ble r) = Some c ->
       NoDup (Dict.keys (_notify_handlers r)) ->
       Dict.get (_notify_handlers (snd (unsubscribe N char_uuid r))) char_uuid = None
       /\ forall other, char_uuid <> other ->
            Dict.get (_notify_handlers (snd (unsubscribe N char_uuid r))) other
            = Dict.get (_notify_handlers r) other.
Proof.
  split; [reflexivity|]. intros c _ Hnd. cbn.
  split; [apply get_pop, Hnd|intros other Hne; apply get_pop_ne, Hne].
Qed.

(** The handler goes in every state, with no client held as well. *)
Lemma unsubscribe_pops (char_uuid : str) (r : Ring Tr) :
  unsubscribe N char_uuid r
  = (Return tt, mkRing (profile_address r) (ble r) (pop (_notify_handlers r) char_uuid)).
Proof. reflexivity. Qed.

End Facts.

Import Scenario Scenario2.

(** A controller whose manager holds the client of the ring. *)
Example subscribe_with_client :
  subscribe touchy_notifier (py "c1") ring
  = (Raise (AttributeError (py "'function' object has no attribute 'start_notify'")), ring).
Proof. vm_compute. reflexivity. Qed.

Example unsubscribe_with_client :
  unsubscribe touchy_notifier (py "c1") listening_ring = (Return tt, ring).
Proof. vm_compute. reflexivity. Qed.

End RingSessionFacts.

(** ** The provider registry and the provider cycle *)

Module RegistryFacts.

Import ProviderRegistry.

Lemma str_ltb_irrefl (a : str) : str_ltb a a = false.
Proof.
  induction a as [|x a IH]; cbn; [reflexivity|].
  rewrite N.ltb_irrefl, N.eqb_refl, IH. reflexivity.
Qed.

Lemma str_ltb_trans (a b c : str) :
  str_ltb a b = true -> str_ltb b c = true -> str_ltb a c = true.
Proof.
  revert b c. induction a as [|x a IH]; intros [|y b] [|z c]; cbn; try discriminate; auto.
  rewrite !orb_true_iff, !andb_true_iff, !N.ltb_lt, !N.eqb_eq.
  intros [Hxy|[-> Hab]] [Hyz|[-> Hbc]].
  - left. lia.
  - left. exact Hxy.
  - left. exact Hyz.
  - right. split; [reflexivity|]. exact (IH b c Hab Hbc).
Qed.

Lemma str_ltb_total (a b : str) :
  str_ltb a b = false -> str_ltb b a = false -> a = b.
Proof.
  revert b. induction a as [|x a IH]; intros [|y b]; cbn; try discriminate; auto.
  rewrite !orb_false_iff, !andb_false_iff, !N.ltb_ge, !N.eqb_neq.
  intros [Hxy Hab] [Hyx Hba].
  assert (x = y) by lia. subst y.
  destruct Hab as [?|Hab]; [congruence|]. destruct Hba as [?|Hba]; [congruence|].
  rewrite (IH b Hab Hba). reflexivity.
Qed.

Lemma str_le_trans (a b c : str) :
  str_ltb b a = false -> str_ltb c b = false -> str_ltb c a = false.
Proof.
  intros Hab Hbc. destruct (str_ltb c a) eqn:Hca; [|reflexivity].
  destruct (str_ltb a b) eqn:Hlt.
  - rewrite (str_ltb_trans c a b Hca Hlt) in Hbc. discriminate.
  - rewrite (str_ltb_total a b Hlt Hab) in Hca. congruence.
Qed.

Lemma insert_sorted_perm (x : str) (l : list str) :
  Permutation (insert_sorted x l) (x :: l).
Proof.
  induction l as [|y l IH]; cbn; [reflexivity|].
  destruct (str_ltb y x); [|reflexivity]. rewrite IH. apply perm_swap.
Qed.

Lemma sorted_perm (l : list str) : Permutation (sorted l) l.
Proof.
  induction l as [|x l IH]; cbn; [reflexivity|].
  rewrite insert_sorted_perm, IH. reflexivity.
Qed.

Lemma insert_sorted_le (x : str) (l : list str) :
  StronglySorted (fun a b => str_ltb b a = false) l ->
  StronglySorted (fun a b => str_ltb b a = false) (insert_sorted x l).
Proof.
  induction l as [|y l IH]; cbn; intros Hs; [repeat constructor|].
  apply StronglySorted_inv in Hs as [Hs Hall].
  destruct (str_ltb y x) eqn:Hyx.
  - constructor; [apply IH, Hs|].
    apply (Permutation_Forall (Permutation_sym (insert_sorted_perm x l))).
    constructor; [|exact Hall].
    destruct (str_ltb x y) eqn:Hxy; [|reflexivity].
    pose proof (str_ltb_trans y x y Hyx Hxy) as Hyy.
    rewrite str_ltb_irrefl in Hyy. discriminate Hyy.
  - constructor; [constructor; assumption|]. constructor; [exact Hyx|].
    eapply Forall_impl; [exact Hall|]. cbn. intros z Hz.
    exact (str_le_trans x y z Hyx Hz).
Qed.

Lemma sorted_le (l : list str) : StronglySorted (fun a b => str_ltb b a = false) (sorted l).
Proof.
  induction l as [|x l IH]; cbn; [constructor|]. apply insert_sorted_le, IH.
Qed.

Lemma sorted_strict (l : list str) :
  NoDup l -> StronglySorted (fun a b => str_ltb b a = false) l ->
  StronglySorted (fun a b => str_ltb a b = true) l.
Proof.
  induction l as [|x l IH]; intros Hnd Hs; [constructor|].
  apply NoDup_cons in Hnd as [Hnot Hnd]. apply StronglySorted_inv in Hs as [Hs Hall].
  constructor; [apply IH; assumption|].
  rewrite Forall_forall in *. intros y Hy.
  destruct (str_ltb x y) eqn:Hxy; [reflexivity|].
  rewrite (str_ltb_total x y Hxy (Hall y Hy)) in Hnot. destruct (Hnot Hy).
Qed.

Section Facts.
Context {P : Type} (id_of : P -> str).

(** X23. [list_ids] gives the identifiers under which a provider is
    registered, each once, in strictly ascending order of code points; a
    second registration under an identifier replaces the provider and adds
    no identifier. *)
Theorem list_ids_sorted_exact (providers : list (str * P))
    (Hdict : NoDup (Dict.keys providers)) :
  StronglySorted (fun a b => str_ltb a b = true) (list_ids providers)
  /\ (forall pid, pid ∈ list_ids providers <-> is_Some (get providers pid))
  /\ (forall p, is_Some (get providers (id_of p)) ->
        Permutation (list_ids (register id_of p providers)) (list_ids providers)
        /\ get (register id_of p providers) (id_of p) = Some p).
Proof.
  unfold list_ids, get, register. split; [|split].
  - apply sorted_strict; [|apply sorted_le].
    rewrite sorted_perm. exact Hdict.
  - intros pid. rewrite (sorted_perm (Dict.keys providers)).
    rewrite <- not_eq_None_Some, DictFacts.get_None_keys.
    destruct (decide (pid ∈ Dict.keys providers)); tauto.
  - intros p [q Hq]. split.
    + rewrite !sorted_perm, BLEManagerMore.keys_set_order.
      rewrite bool_decide_eq_true_2; [reflexivity|].
      destruct (decide (id_of p ∈ Dict.keys providers)) as [?|Hout]; [assumption|].
      apply DictFacts.get_None_keys in Hout. congruence.
    + rewrite DictFacts.get_set. case_decide; congruence.
Qed.

End Facts.

Lemma index_lookup (cur : str) (ids : list str) (i : nat) :
  index cur ids = Some i -> ids !! i = Some cur.
Proof.
  revert i. induction ids as [|x ids IH]; cbn; intros i; [discriminate|].
  destruct (decide (x = cur)) as [->|Hne]; [intros [= <-]; reflexivity|].
  destruct (index cur ids) as [j|]; cbn; [|discriminate].
  intros [= <-]. cbn. apply IH. reflexivity.
Qed.

Lemma lookup_index (x : str) (ids : list str) (j : nat) :
  NoDup ids -> ids !! j = Some x -> index x ids = Some j.
Proof.
  revert j. induction ids as [|y ids IH]; intros j Hnd Hj; [discriminate|].
  apply NoDup_cons in Hnd as [Hnot Hnd]. cbn. destruct j as [|j]; cbn in Hj.
  - injection Hj as ->. destruct (decide (x = x)); congruence.
  - destruct (decide (y = x)) as [->|Hne].
    + exfalso. apply Hnot. eapply list_elem_of_lookup_2. exact Hj.
    + rewrite (IH j Hnd Hj). reflexivity.
Qed.

Lemma index_elem (cur : str) (ids : list str) :
  cur ∈ ids -> exists i, index cur ids = Some i.
Proof.
  induction ids as [|x ids IH]; intros Hin; [inversion Hin|]. cbn.
  destruct (decide (x = cur)); [eauto|].
  apply elem_of_cons in Hin as [?|Hin]; [congruence|].
  destruct (IH Hin) as [i ->]. eauto.
Qed.

Lemma cycle_index (ids : list str) (cur : str) (i : nat) :
  NoDup ids -> index cur ids = Some i ->
  index (_cycle_llm ids cur) ids = Some ((i + 1) mod length ids)%nat.
Proof.
  intros Hnd Hi. unfold _cycle_llm. destruct ids as [|first ids']; [discriminate|].
  rewrite Hi. set (ids := first :: ids') in *.
  assert (Hlt : ((i + 1) mod length ids < length ids)%nat)
    by (apply Nat.mod_upper_bound; discriminate).
  destruct (lookup_lt_is_Some_2 ids _ Hlt) as [x Hx]. rewrite Hx. cbn [default from_option id].
  apply lookup_index; assumption.
Qed.

Lemma iter_cycle_index (ids : list str) (cur : str) (i k : nat) :
  NoDup ids -> index cur ids = Some i ->
  index (Nat.iter k (_cycle_llm ids) cur) ids = Some ((i + k) mod length ids)%nat.
Proof.
  intros Hnd Hi. assert (Hlen : (i < length ids)%nat).
  { apply index_lookup in Hi. eapply lookup_lt_Some. exact Hi. }
  induction k as [|k IH].
  - cbn [Nat.iter nat_rect]. rewrite Nat.add_0_r, Nat.mod_small by exact Hlen. exact Hi.
  - rewrite Nat.iter_succ, (cycle_index ids _ _ Hnd IH).
    rewrite Nat.Div0.add_mod_idemp_l by lia. f_equal. f_equal. lia.
Qed.

(** X24. The provider cycle goes round: over identifiers without
    repetition, starting from one of them, as many steps as there are
    identifiers lead back to the start, and every identifier is reached on
    the way; from an identifier that is not registered the cycle goes to the
    first one, and with no identifier at all it stays where it is. *)
Theorem cycle_llm_goes_round (ids : list str) (cur : str) (Hnd : NoDup ids) :
  (cur ∈ ids ->
   Nat.iter (length ids) (_cycle_llm ids) cur = cur
   /\ forall x, x ∈ ids ->
        exists k, (k < length ids)%nat /\ Nat.iter k (_cycle_llm ids) cur = x)
  /\ (cur ∉ ids -> _cycle_llm ids cur = default cur (head ids)).
Proof.
  split.
  - intros Hin. destruct (index_elem cur ids Hin) as [i Hi].
    assert (Hlen : (i < length ids)%nat).
    { apply index_lookup in Hi. eapply lookup_lt_Some. exact Hi. }
    split.
    + pose proof (iter_cycle_index ids cur i (length ids) Hnd Hi) as Hk.
      replace ((i + length ids) mod length ids)%nat with i in Hk.
      * apply index_lookup in Hk. apply index_lookup in Hi. congruence.
      * rewrite <- Nat.Div0.add_mod_idemp_r, Nat.Div0.mod_same, Nat.add_0_r, Nat.mod_small by lia.
        reflexivity.
    + intros x Hx. destruct (index_elem x ids Hx) as [j Hj].
      assert (Hj' : (j < length ids)%nat).
      { apply index_lookup in Hj. eapply lookup_lt_Some. exact Hj. }
      exists ((j + length ids - i) mod length ids)%nat. split.
      * apply Nat.mod_upper_bound. lia.
      * pose proof (iter_cycle_index ids cur i ((j + length ids - i) mod length ids)
                      Hnd Hi) as Hk.
        rewrite Nat.Div0.add_mod_idemp_r in Hk by lia.
        replace (i + (j + length ids - i))%nat with (j + 1 * length ids)%nat in Hk by lia.
        rewrite Nat.Div0.mod_add, (Nat.mod_small j) in Hk by lia.
        apply index_lookup in Hk. apply index_lookup in Hj. congruence.
  - intros Hout. unfold _cycle_llm. destruct ids as [|first ids']; [reflexivity|].
    destruct (index cur (first :: ids')) as [i|] eqn:Hi; [|reflexivity].
    apply index_lookup in Hi. exfalso. apply Hout. eapply list_elem_of_lookup_2. exact Hi.
Qed.

End RegistryFacts.

(** ** The properties on the concrete scenarios *)

Module Witnesses.

Import Scenario Scenario2.

Local Ltac by_compute := apply (bool_decide_unpack _); vm_compute; exact I.

Lemma publish_only_own_topic_witness :
  (exists r',
      EventBus.publish bus_body (py "button_long") tap_payload
        (snd (EventBus.subscribe (py "button_single") 9%nat wired_bus)) = (Return tt, r')
      /\ EventBus.invoked (snd (EventBus.subscribe (py "button_single") 9%nat wired_bus)) r'
         = EventBus.subs_at (EventBus.world wired_bus) (py "button_long"))
  /\ (EventBus.subs_at (EventBus.world wired_bus) (py "button_long") = [] ->
      EventBus.publish bus_body (py "button_long") tap_payload wired_bus
      = (Return tt, wired_bus)).
Proof.
  apply (EventBusMore.publish_only_own_topic bus_body (py "button_single") (py "button_long")
           tap_payload 9%nat wired_bus).
  discriminate.
Defined.

Lemma dispatch_propagates_failure_witness :
  ActionRouter.dispatch action_body (py "noop") None two_action_router
  = (Raise boom,
     ActionRouter.mkRouter (ActionRouter._handlers two_action_router) [0%nat]
       [(0%nat, [(py "action", VStr (py "noop"))])]).
Proof.
  apply (ActionRouterMore.dispatch_propagates_failure action_body two_action_router
           (py "noop") 0%nat None boom [0%nat]); reflexivity.
Defined.

Lemma register_leaves_other_actions_witness :
  fst (ActionRouter.dispatch action_body (py "toggle_listen") None two_action_router)
  = fst (ActionRouter.dispatch action_body (py "toggle_listen") None one_action_router).
Proof.
  apply (proj1 (ActionRouterMore.register_leaves_other_actions action_body one_action_router
                  (py "noop") (py "toggle_listen") 0%nat None ltac:(discriminate))).
Defined.

Lemma handle_calls_every_match_witness :
  exists seen,
    MainWindow._handle quiet_body shared_topic_table (py "button_single") tap_payload
      two_action_router
    = (Return tt,
       ActionRouter.mkRouter (ActionRouter._handlers two_action_router) seen
         (ActionRouter.calls two_action_router
          ++ Bridge.expected_calls (ActionRouter._handlers two_action_router)
               (MainWindow.triggered shared_topic_table (py "button_single"))
               (py "button_single") tap_payload)).
Proof.
  apply (BridgeFacts.handle_calls_every_match quiet_body shared_topic_table
           (py "button_single") tap_payload two_action_router).
  intros h arg a. reflexivity.
Defined.

(** The calls of the scenario: [noop] and [toggle_listen] have a handler,
    [cycle_llm] has none. *)
Example expected_calls_of_scenario :
  Bridge.expected_calls (ActionRouter._handlers two_action_router)
    (MainWindow.triggered shared_topic_table (py "button_single"))
    (py "button_single") tap_payload
  = [ (0%nat, Bridge.dispatch_payload (py "noop") (py "button_single") tap_payload);
      (7%nat, Bridge.dispatch_payload (py "toggle_listen") (py "button_single") tap_payload) ].
Proof. vm_compute. reflexivity. Qed.

Lemma handle_stops_at_failure_witness :
  MainWindow._handle action_body shared_topic_table (py "button_single") tap_payload
    two_action_router
  = (Raise boom,
     ActionRouter.mkRouter (ActionRouter._handlers two_action_router) [0%nat]
       [(0%nat, Bridge.dispatch_payload (py "noop") (py "button_single") tap_payload)]).
Proof.
  apply (BridgeFacts.handle_stops_at_failure action_body shared_topic_table
           (py "button_single") tap_payload two_action_router (py "noop")
           [py "toggle_listen"; py "cycle_llm"] 0%nat boom [0%nat]);
    vm_compute; reflexivity.
Defined.

Lemma wired_publish_contains_failure_witness :
  fst (EventBus.publish (Bridge.window_body action_body payload_text) (py "button_single")
         tap_payload (Bridge.wired window))
  = Return tt.
Proof.
  rewrite (BridgeFacts.wired_publish_contains_failure action_body payload_text window 0%nat
             (py "button_single") tap_payload eq_refl).
  reflexivity.
Defined.

Lemma connect_disconnects_first_witness :
  exists rest,
    BLEManager.trace (snd (BLEManager.connect (flaky 2 []) ring_address 12 connected))
    = BLEManager.trace connected ++ BLEManager.Disconnect ring_client :: rest.
Proof.
  apply (proj1 (BLEManagerMore.connect_disconnects_first (flaky 2 []) ring_address 12
                  connected ring_client eq_refl)).
Defined.

Lemma connect_first_attempt_is_final_witness :
  BLEManager.connect (flaky 0 []) ring_address 12 idle
  = (Return ring_client,
     BLEManager.mkState (Some ring_client) 1%nat
       [BLEManager.FindDevice ring_address 12; BLEManager.Connect ring_client]).
Proof.
  apply (proj1 (BLEManagerMore.connect_first_attempt_is_final (flaky 0 []) ring_address 12
                  idle idle
                  (BLEManager.mkState None 0%nat [BLEManager.FindDevice ring_address 12])
                  (BLEManager.mkState None 1%nat
                     [BLEManager.FindDevice ring_address 12; BLEManager.Connect ring_client])
                  (Some (BLEManager.mkBLEDevice ring_address (Some (py "Ring"))))
                  eq_refl eq_refl eq_refl)).
Defined.

Lemma connect_falls_back_to_address_witness :
  BLEManager.connect unresolved ring_address 12 idle
  = (Return (BLEManager.mkBleakClient (inr ring_address) 12),
     BLEManager.mkState (Some (BLEManager.mkBleakClient (inr ring_address) 12)) 1%nat
       [ BLEManager.FindDevice ring_address 12;
         BLEManager.Connect (BLEManager.mkBleakClient (inr ring_address) 12) ]).
Proof.
  apply (BLEManagerMore.connect_falls_back_to_address unresolved ring_address 12 idle idle
           (attempt_error 9) 0%nat 1%nat eq_refl eq_refl eq_refl eq_refl).
Defined.

Lemma three_providers_keys : NoDup (Dict.keys three_providers).
Proof. by_compute. Qed.

Lemma list_ids_sorted_exact_witness :
  StronglySorted (fun a b => ProviderRegistry.str_ltb a b = true)
    (ProviderRegistry.list_ids three_providers)
  /\ (forall pid, pid ∈ ProviderRegistry.list_ids three_providers
                  <-> is_Some (ProviderRegistry.get three_providers pid))
  /\ (forall p, is_Some (ProviderRegistry.get three_providers (id p)) ->
        Permutation (ProviderRegistry.list_ids (ProviderRegistry.register id p three_providers))
                    (ProviderRegistry.list_ids three_providers)
        /\ ProviderRegistry.get (ProviderRegistry.register id p three_providers) (id p)
           = Some p).
Proof.
  apply (RegistryFacts.list_ids_sorted_exact id three_providers). by_compute.
Defined.

(** The identifiers of the window, as [list_ids] gives them. *)
Example list_ids_of_window :
  ProviderRegistry.list_ids three_providers = [py "ollama"; py "openai"; py "openai_compat"].
Proof. vm_compute. reflexivity. Qed.

Lemma cycle_llm_goes_round_witness :
  Nat.iter 3 (ProviderRegistry._cycle_llm (ProviderRegistry.list_ids three_providers))
    (py "openai")
  = py "openai".
Proof.
  apply (proj1 (proj1 (RegistryFacts.cycle_llm_goes_round
                         (ProviderRegistry.list_ids three_providers) (py "openai")
                         ltac:(by_compute))
                      ltac:(by_compute))).
Defined.

Lemma default_table_duplicate_free : MainWindow.duplicate_free default_table.
Proof.
  intros action triggers. unfold default_table. cbn [Dict.get].
  repeat case_decide; intros [= <-]; by_compute.
Qed.

Lemma run_duplicate_free_witness :
  MainWindow.tab_duplicate_free
    (MainWindow.run (Return tt)
       [ MainWindow.AddMapping (py "button_long") (py "toggle_listen");
         MainWindow.RemoveMapping [0%nat] ] default_tab).
Proof.
  apply (MainWindowFacts.run_duplicate_free (Return tt) _ default_tab).
  intros m [= <-]. exact default_table_duplicate_free.
Defined.

End Witnesses.
